(** * directus-data-model: the Collection compiler ([src/collection.ts])

    A shallow embedding of the [Collection] class and of what it needs from
    its two collaborators, [Field] ([./field]) and [Builder] ([./builder]).

    A [Collection] instance is mutated in place by every call, and the
    [Field] objects it creates are shared: the object pushed on
    [this.fields] is the one handed back to the caller for chaining, so a
    later [.special(...)] on the returned field is seen by [render()].
    The embedding keeps that sharing: methods are computations over the
    instance ([This.t]), and a field reference is the position of the field
    in [this.fields]. *)

From stdpp Require Import base option list strings gmap.
From Stdlib Require Import ZArith.

Set Default Proof Using "Type".
Open Scope Z_scope.
Open Scope string_scope.
Open Scope list_scope.

(** The type of JS strings.  [Collection] has a method called [string], so
    the type gets a second name that stays usable after it. *)
Abbreviation jsstring := String.string (only parsing).

(** JS [number]s are only stored by this class, never computed with. *)
Abbreviation number := Z (only parsing).

(** ** Values, objects and exceptions *)

(** The values that occur in the object literals of [collection.ts]:
    [{ template }] and [{ relative: true }]. *)
Inductive JsVal : Type :=
| JStr (s : jsstring)
| JBool (b : bool).

(** A plain JS object used as a map from keys to values. *)
Abbreviation JsObject := (gmap jsstring JsVal) (only parsing).

Inductive Error : Type :=
| TypeError (msg : jsstring).

Inductive Result (A : Type) : Type :=
| Ok (a : A)
| Throw (e : Error).
Arguments Ok {A} a.
Arguments Throw {A} e.

(** ** The registry ([./builder]) *)

Module Builder.

(** Modelled from the spec: [builder.ts] is not part of the sources.  A
    relation is "a directed edge (sourceCollection, sourceField) →
    relatedCollection with an on_delete policy", "owned by the registry". *)
Record Relation : Type := {
  collection : jsstring;
  field : jsstring;
  related_collection : option jsstring;   (* [None] is JS [null] *)
  on_delete : option jsstring             (* [None]: no policy chosen *)
}.

(** Modelled from the spec: the registry treats "relation registration as
    an append-only log with no deduplication". *)
Definition t : Type := list Relation.

(** Modelled from the spec: [registerRelation(sourceCollection,
    sourceField, relatedCollection | null) -> void]. *)
Definition relation (c f : jsstring) (related : option jsstring) (b : t) : t :=
  b ++ [ {| collection := c; field := f;
            related_collection := related; on_delete := None |} ].

(** Modelled from the spec: an edge is identified by its source, the pair
    [(sourceCollection, sourceField)]. *)
Definition source_is (c f : jsstring) (r : Relation) : bool :=
  bool_decide (collection r = c) && bool_decide (field r = f).

(** Modelled from the spec: the edge [r] with its [on_delete] policy set. *)
Definition with_policy (policy : jsstring) (r : Relation) : Relation :=
  {| collection := collection r; field := field r;
     related_collection := related_collection r;
     on_delete := Some policy |}.

(** Modelled from the spec: the policy is set on the first edge of [rs]
    whose source is [(c, f)]. *)
Fixpoint set_first (c f policy : jsstring) (rs : list Relation) : list Relation :=
  match rs with
  | [] => []
  | r :: rs' =>
      if source_is c f r then with_policy policy r :: rs'
      else r :: set_first c f policy rs'
  end.

(** Modelled from the spec: the delete policy belongs to the edge, which
    the registry owns; it is set on the edge most recently registered for
    the source [(c, f)], and nothing happens when there is none. *)
Definition set_on_delete (c f policy : jsstring) (b : t) : t :=
  rev (set_first c f policy (rev b)).

End Builder.

(** ** Field descriptors ([./field]) *)

Module FieldSchema.
(** Modelled from the spec: [FieldSchema] is declared in [field.ts], which
    is not part of the sources.  "storage constraints: max_length,
    numeric_precision, numeric_scale, nullable, primary-key flag,
    autoincrement flag".  A key that is [None] is absent. *)
Record t : Type := {
  max_length : option number;
  numeric_precision : option number;
  numeric_scale : option number;
  nullable : option bool;
  primary_key : option bool;
  autoincrement : option bool
}.

(** Modelled from the spec: the schema of a field declared without one. *)
Definition empty : t :=
  {| max_length := None; numeric_precision := None; numeric_scale := None;
     nullable := None; primary_key := None; autoincrement := None |}.
End FieldSchema.

Module FieldMeta.
(** Modelled from the spec: [FieldMeta] is declared in [field.ts].
    "interface name + interface options, display name + display options,
    ordered set of special tags ... stored as an ordered sequence matching
    declaration order". *)
Record t : Type := {
  interface : option jsstring;
  interface_options : option JsObject;
  display : option jsstring;
  display_options : option JsObject;
  special : list jsstring
}.

(** Modelled from the spec: the meta of a field declared without one; no
    interface, no display and no special tag. *)
Definition empty : t :=
  {| interface := None; interface_options := None;
     display := None; display_options := None; special := [] |}.
End FieldMeta.

Module Field.

(** Modelled from the spec: the [Field] class of [field.ts].  [collection]
    is the back-reference to the owning collection, "used only to pass the
    owning collection's name into relation registration calls". *)
Record t : Type := {
  collection : jsstring;
  name : jsstring;
  type : jsstring;
  schema : FieldSchema.t;
  meta : FieldMeta.t
}.

(** Modelled from the spec: [new Field(builder, collection, name, type,
    schema?, meta?)]; an omitted [schema] or [meta] is the empty object. *)
Definition new (owner name type : jsstring)
    (schema : option FieldSchema.t) (meta : option FieldMeta.t) : t :=
  {| collection := owner; name := name; type := type;
     schema := default FieldSchema.empty schema;
     meta := default FieldMeta.empty meta |}.

(** Modelled from the spec: a setter changes [schema] or [meta] and nothing
    else; "a field's type is fixed at construction and never changed". *)
Definition with_schema (g : FieldSchema.t → FieldSchema.t) (f : t) : t :=
  {| collection := collection f; name := name f; type := type f;
     schema := g (schema f); meta := meta f |}.

(** Modelled from the spec: see [with_schema]. *)
Definition with_meta (g : FieldMeta.t → FieldMeta.t) (f : t) : t :=
  {| collection := collection f; name := name f; type := type f;
     schema := schema f; meta := g (meta f) |}.

(** Modelled from the spec: the "chainable setters" of §4.2, each of which
    "returns itself".  [notNullable()] gives [schema.nullable = false]. *)
Definition notNullable : t → t :=
  with_schema (λ s,
    {| FieldSchema.max_length := FieldSchema.max_length s;
       FieldSchema.numeric_precision := FieldSchema.numeric_precision s;
       FieldSchema.numeric_scale := FieldSchema.numeric_scale s;
       FieldSchema.nullable := Some false;
       FieldSchema.primary_key := FieldSchema.primary_key s;
       FieldSchema.autoincrement := FieldSchema.autoincrement s |}).

(** Modelled from the spec: [pk()] gives [schema.primary_key = true]. *)
Definition pk : t → t :=
  with_schema (λ s,
    {| FieldSchema.max_length := FieldSchema.max_length s;
       FieldSchema.numeric_precision := FieldSchema.numeric_precision s;
       FieldSchema.numeric_scale := FieldSchema.numeric_scale s;
       FieldSchema.nullable := FieldSchema.nullable s;
       FieldSchema.primary_key := Some true;
       FieldSchema.autoincrement := FieldSchema.autoincrement s |}).

(** Modelled from the spec: [autoincrement()] gives
    [schema.autoincrement = true]. *)
Definition autoincrement : t → t :=
  with_schema (λ s,
    {| FieldSchema.max_length := FieldSchema.max_length s;
       FieldSchema.numeric_precision := FieldSchema.numeric_precision s;
       FieldSchema.numeric_scale := FieldSchema.numeric_scale s;
       FieldSchema.nullable := FieldSchema.nullable s;
       FieldSchema.primary_key := FieldSchema.primary_key s;
       FieldSchema.autoincrement := Some true |}).

(** Modelled from the spec: [special(...kinds)] is an "append" to the
    ordered sequence of tags. *)
Definition special (kinds : list jsstring) : t → t :=
  with_meta (λ m,
    {| FieldMeta.interface := FieldMeta.interface m;
       FieldMeta.interface_options := FieldMeta.interface_options m;
       FieldMeta.display := FieldMeta.display m;
       FieldMeta.display_options := FieldMeta.display_options m;
       FieldMeta.special := FieldMeta.special m ++ kinds |}).

(** Modelled from the spec: [interface(name, options?)] stores the
    "interface name + interface options". *)
Definition interface (name : jsstring) (options : option JsObject) : t → t :=
  with_meta (λ m,
    {| FieldMeta.interface := Some name;
       FieldMeta.interface_options := options;
       FieldMeta.display := FieldMeta.display m;
       FieldMeta.display_options := FieldMeta.display_options m;
       FieldMeta.special := FieldMeta.special m |}).

(** Modelled from the spec: [display(name, options?)] stores the "display
    name + display options". *)
Definition display (name : jsstring) (options : option JsObject) : t → t :=
  with_meta (λ m,
    {| FieldMeta.interface := FieldMeta.interface m;
       FieldMeta.interface_options := FieldMeta.interface_options m;
       FieldMeta.display := Some name;
       FieldMeta.display_options := options;
       FieldMeta.special := FieldMeta.special m |}).

(** Modelled from the spec: [relation(relatedCollection)] registers the
    edge from this field with the registry and leaves the field as it is. *)
Definition relation (related : option jsstring) (f : t) : Builder.t → Builder.t :=
  Builder.relation (collection f) (name f) related.

(** Modelled from the spec: [on_delete(policy)] sets the delete policy of
    the edge registered for this field; the policy is "not stored on
    Collection/FieldDescriptor". *)
Definition on_delete (policy : jsstring) (f : t) : Builder.t → Builder.t :=
  Builder.set_on_delete (collection f) (name f) policy.

(** Modelled from the spec: the shape [{field, type, schema, meta}] of what
    [Field.render()] returns. *)
Record Output : Type := {
  out_field : jsstring;
  out_type : jsstring;
  out_schema : FieldSchema.t;
  out_meta : FieldMeta.t
}.

(** Modelled from the spec: "[render()] yields [{field: name, type,
    schema, meta}]". *)
Definition render (f : t) : Output :=
  {| out_field := name f; out_type := type f;
     out_schema := schema f; out_meta := meta f |}.

End Field.

(** ** Collection metadata *)

(** [CollectionAccountability = "all" | "activity" | null]; the [null] is
    the [None] of [option Accountability]. *)
Inductive Accountability : Type :=
| AccAll
| AccActivity.

Module CollectionMeta.

(** An element of [translations]; [singular] and [plural] are [None] when
    they are [undefined]. *)
Record Translation : Type := {
  language : jsstring;
  translation : jsstring;
  singular : option jsstring;
  plural : option jsstring
}.

(** [CollectionMeta]: every key is optional, so every key has an outer
    [option] whose [None] means that the key is unset.  Where the value may
    be [null] there is an inner [option] whose [None] is that [null]. *)
Record t : Type := {
  sort_field : option jsstring;
  archive_field : option jsstring;
  archive_value : option (option jsstring);
  unarchive_value : option (option jsstring);
  archive_app_filter : option bool;
  accountability : option (option Accountability);
  hidden : option bool;
  singleton : option bool;
  translations : option (list Translation)
}.

(** The object literal [{}]. *)
Definition empty : t :=
  {| sort_field := None; archive_field := None; archive_value := None;
     unarchive_value := None; archive_app_filter := None;
     accountability := None; hidden := None; singleton := None;
     translations := None |}.

(** Assignments to one key: [meta.key = v]. *)
Definition set_sort_field (v : jsstring) (m : t) : t :=
  {| sort_field := Some v; archive_field := archive_field m;
     archive_value := archive_value m; unarchive_value := unarchive_value m;
     archive_app_filter := archive_app_filter m;
     accountability := accountability m; hidden := hidden m;
     singleton := singleton m; translations := translations m |}.

Definition set_archive_field (v : jsstring) (m : t) : t :=
  {| sort_field := sort_field m; archive_field := Some v;
     archive_value := archive_value m; unarchive_value := unarchive_value m;
     archive_app_filter := archive_app_filter m;
     accountability := accountability m; hidden := hidden m;
     singleton := singleton m; translations := translations m |}.

Definition set_archive_value (v : option jsstring) (m : t) : t :=
  {| sort_field := sort_field m; archive_field := archive_field m;
     archive_value := Some v; unarchive_value := unarchive_value m;
     archive_app_filter := archive_app_filter m;
     accountability := accountability m; hidden := hidden m;
     singleton := singleton m; translations := translations m |}.

Definition set_unarchive_value (v : option jsstring) (m : t) : t :=
  {| sort_field := sort_field m; archive_field := archive_field m;
     archive_value := archive_value m; unarchive_value := Some v;
     archive_app_filter := archive_app_filter m;
     accountability := accountability m; hidden := hidden m;
     singleton := singleton m; translations := translations m |}.

Definition set_archive_app_filter (v : bool) (m : t) : t :=
  {| sort_field := sort_field m; archive_field := archive_field m;
     archive_value := archive_value m; unarchive_value := unarchive_value m;
     archive_app_filter := Some v;
     accountability := accountability m; hidden := hidden m;
     singleton := singleton m; translations := translations m |}.

Definition set_accountability (v : option Accountability) (m : t) : t :=
  {| sort_field := sort_field m; archive_field := archive_field m;
     archive_value := archive_value m; unarchive_value := unarchive_value m;
     archive_app_filter := archive_app_filter m;
     accountability := Some v; hidden := hidden m;
     singleton := singleton m; translations := translations m |}.

Definition set_hidden (v : bool) (m : t) : t :=
  {| sort_field := sort_field m; archive_field := archive_field m;
     archive_value := archive_value m; unarchive_value := unarchive_value m;
     archive_app_filter := archive_app_filter m;
     accountability := accountability m; hidden := Some v;
     singleton := singleton m; translations := translations m |}.

Definition set_singleton (v : bool) (m : t) : t :=
  {| sort_field := sort_field m; archive_field := archive_field m;
     archive_value := archive_value m; unarchive_value := unarchive_value m;
     archive_app_filter := archive_app_filter m;
     accountability := accountability m; hidden := hidden m;
     singleton := Some v; translations := translations m |}.

Definition set_translations (v : list Translation) (m : t) : t :=
  {| sort_field := sort_field m; archive_field := archive_field m;
     archive_value := archive_value m; unarchive_value := unarchive_value m;
     archive_app_filter := archive_app_filter m;
     accountability := accountability m; hidden := hidden m;
     singleton := singleton m; translations := Some v |}.

End CollectionMeta.

(** ** The instance and the computations over it *)

Module This.

(** The five instance fields of [class Collection].  [builder] is a
    reference to the registry, which outlives the call and is shared; what
    is kept here is the registry's state, so that a registration made
    through a field is seen through the collection and conversely. *)
Record t : Type := {
  builder : Builder.t;
  name : jsstring;
  schema : JsObject;
  meta : CollectionMeta.t;
  fields : list Field.t
}.

Definition with_builder (g : Builder.t → Builder.t) (s : t) : t :=
  {| builder := g (builder s); name := name s; schema := schema s;
     meta := meta s; fields := fields s |}.

Definition with_meta (g : CollectionMeta.t → CollectionMeta.t) (s : t) : t :=
  {| builder := builder s; name := name s; schema := schema s;
     meta := g (meta s); fields := fields s |}.

Definition with_fields (g : list Field.t → list Field.t) (s : t) : t :=
  {| builder := builder s; name := name s; schema := schema s;
     meta := meta s; fields := g (fields s) |}.

End This.

(** A method body: it reads and writes the instance and either returns or
    throws. *)
Definition M (A : Type) : Type := This.t → Result (A * This.t).

#[global] Instance M_ret : MRet M := λ A a s, Ok (a, s).

#[global] Instance M_bind : MBind M := λ A B k m s,
  match m s with
  | Ok (a, s') => k a s'
  | Throw e => Throw e
  end.

(** Method chaining, [o.f(x).g(y)]: the result of the call on the left is the
    receiver of the call on the right. *)
Notation "m ⤳ f" := (mbind f m) (at level 50, left associativity).

Definition run {A : Type} (m : M A) (s : This.t) : Result (A * This.t) := m s.

Definition get : M This.t := λ s, Ok (s, s).

Definition modify (g : This.t → This.t) : M unit := λ s, Ok (tt, g s).

Definition throw {A : Type} (e : Error) : M A := λ _, Throw e.

(** [Array.prototype.push] through a property that may be [undefined]:
    [o.k.push(x)] throws a [TypeError] when [o.k] is [undefined]. *)
Definition push {A : Type} (array : option (list A)) (x : A) : M (list A) :=
  match array with
  | Some l => mret (l ++ [x])
  | None => throw (TypeError "Cannot read properties of undefined (reading 'push')")
  end.

(** [Array.isArray] on an optional array-typed key. *)
Definition isArray {A : Type} (v : option (list A)) : bool :=
  match v with Some _ => true | None => false end.

(** ** References to fields *)

Module FieldRef.

(** A reference to one of the [Field] objects of [this.fields]: its
    position.  [push] never moves an element, so a position keeps denoting
    the same object. *)
Definition t : Type := nat.

(** The object behind a reference.  JS has no reference to nothing; a
    position outside [this.fields] is an error of the embedding, kept
    visible as a throw, and [run_update] below shows that the references
    returned by [field] are never such. *)

Definition deref (field : t) : M Field.t := λ s,
  match This.fields s !! field with
  | Some f => Ok (f, s)
  | None => Throw (TypeError "dangling field reference")
  end.

(** A setter called through the reference: the object in [this.fields] is
    the one that changes, and the call returns the same reference. *)
Definition update (g : Field.t → Field.t) (field : t) : M t :=
  f ← deref field;
  modify (This.with_fields (λ fs, <[field := g f]> fs));;
  mret field.

Definition notNullable : t → M t := update Field.notNullable.
Definition pk : t → M t := update Field.pk.
Definition autoincrement : t → M t := update Field.autoincrement.
Definition special (kinds : list jsstring) : t → M t :=
  update (Field.special kinds).
Definition interface (name : jsstring) (options : option JsObject) : t → M t :=
  update (Field.interface name options).
Definition display (name : jsstring) (options : option JsObject) : t → M t :=
  update (Field.display name options).

Definition relation (related : option jsstring) (field : t) : M t :=
  f ← deref field;
  modify (This.with_builder (Field.relation related f));;
  mret field.

Definition on_delete (policy : jsstring) (field : t) : M t :=
  f ← deref field;
  modify (This.with_builder (Field.on_delete policy f));;
  mret field.

End FieldRef.

(** ** The class [Collection] *)

(** The [type] parameter of [primary_key]: ["integer" | "uuid" | "string"]. *)
Inductive PkType : Type :=
| PkInteger
| PkUuid
| PkString.

Definition PkType_name (type : PkType) : jsstring :=
  match type with
  | PkInteger => "integer"
  | PkUuid => "uuid"
  | PkString => "string"
  end.

(** The [on_create] parameter of [uuid], ["uuid" | "user" | "role"], and its
    [on_update] parameter, ["user" | "role"].  Their [null] is the [None] of
    an [option]. *)
Inductive OnCreate : Type :=
| CreateUuid
| CreateUser
| CreateRole.

Inductive OnUpdate : Type :=
| UpdateUser
| UpdateRole.

Module Rendered.
(** The object literal that [Collection.render()] returns. *)
Record t : Type := {
  collection : jsstring;
  schema : JsObject;
  meta : CollectionMeta.t;
  fields : list Field.Output
}.
End Rendered.

(** [function date_special(field, on_create, on_updated)] *)
Definition date_special (field : FieldRef.t) (on_create on_updated : bool)
    : M FieldRef.t :=
  let special : list jsstring := [] in
  let special := if on_create then special ++ ["date-created"] else special in
  let special := if on_updated then special ++ ["date-updated"] else special in
  if negb (length special =? 0)%nat
  then FieldRef.special special field
  else mret field.

Module Collection.

(** [constructor(builder, name, schema?, meta?, fields?)]; an argument that
    is [None] is [undefined]. *)
Definition constructor (builder : Builder.t) (name : jsstring)
    (schema : option JsObject) (meta : option CollectionMeta.t)
    (fields : option (list Field.t)) : This.t :=
  {| This.builder := builder;
     This.name := name;
     This.schema := match schema with None => ∅ | Some schema => schema end;
     This.meta := match meta with None => CollectionMeta.empty | Some meta => meta end;
     This.fields := match fields with None => [] | Some fields => fields end |}.

Definition findField (field : jsstring) : M (option FieldRef.t) :=
  s ← get;
  mret (fst <$> list_find (λ f, Field.name f = field) (This.fields s)).

(** A parameter with a default value takes it when the argument is
    [undefined], that is [None]. *)
Definition hidden (value : option bool) : M unit :=
  let value := default true value in
  modify (This.with_meta (CollectionMeta.set_hidden value)).

Definition singleton (value : option bool) : M unit :=
  let value := default true value in
  modify (This.with_meta (CollectionMeta.set_singleton value)).

Definition sort (field : jsstring) : M unit :=
  modify (This.with_meta (CollectionMeta.set_sort_field field)).

(** [archive] and [unarchive] are [string | null] with a default: the
    outer [None] is an omitted argument, [Some None] is an explicit
    [null]. *)
Definition archive (field : jsstring)
    (archive unarchive : option (option jsstring)) (filter : option bool)
    : M unit :=
  let archive := default (Some "archived") archive in
  let unarchive := default (Some "draft") unarchive in
  let filter := default true filter in
  modify (This.with_meta (CollectionMeta.set_archive_field field));;
  modify (This.with_meta (CollectionMeta.set_archive_value archive));;
  modify (This.with_meta (CollectionMeta.set_unarchive_value unarchive));;
  modify (This.with_meta (CollectionMeta.set_archive_app_filter filter)).

Definition accountability (value : option Accountability) : M unit :=
  modify (This.with_meta (CollectionMeta.set_accountability value)).

Definition translation (language translation : jsstring)
    (singular plural : option jsstring) : M unit :=
  s ← get;
  (if negb (isArray (CollectionMeta.translations (This.meta s)))
   then modify (This.with_meta (CollectionMeta.set_translations []))
   else mret tt);;
  s ← get;
  array ← push (CollectionMeta.translations (This.meta s))
             {| CollectionMeta.language := language;
                CollectionMeta.translation := translation;
                CollectionMeta.singular := singular;
                CollectionMeta.plural := plural |};
  modify (This.with_meta (CollectionMeta.set_translations array)).

Definition field (name type : jsstring)
    (schema : option FieldSchema.t) (meta : option FieldMeta.t) : M FieldRef.t :=
  s ← get;
  let field := Field.new (This.name s) name type schema meta in
  modify (This.with_fields (λ fs, fs ++ [field]));;
  mret (length (This.fields s)).

Definition relation (field : jsstring) (related_collection : option jsstring)
    : M unit :=
  s ← get;
  modify (This.with_builder (Builder.relation (This.name s) field related_collection)).

Definition primary_key (name : jsstring) (type : PkType) : M FieldRef.t :=
  field ← field name (PkType_name type) None None
            ⤳ FieldRef.notNullable ⤳ FieldRef.pk;
  match type with
  | PkInteger => FieldRef.autoincrement field
  | PkUuid => FieldRef.special ["uuid"] field
  | PkString => mret field
  end.

Definition create_options (on_create : OnCreate) : jsstring :=
  match on_create with
  | CreateUuid => "uuid"
  | CreateUser => "user-created"
  | CreateRole => "role-created"
  end.

Definition update_options (on_update : OnUpdate) : jsstring :=
  match on_update with
  | UpdateUser => "user-updated"
  | UpdateRole => "role-updated"
  end.

Definition uuid (name : jsstring) (on_create : option OnCreate)
    (on_update : option OnUpdate) : M FieldRef.t :=
  field ← field name "uuid" None None;
  let special : list jsstring := [] in
  let special :=
    match on_create with
    | Some on_create => special ++ [create_options on_create]
    | None => special
    end in
  let special :=
    match on_update with
    | Some on_update => special ++ [update_options on_update]
    | None => special
    end in
  (if negb (length special =? 0)%nat
   then FieldRef.special special field
   else mret field);;
  mret field.

Definition user_created (name : jsstring) (template : option jsstring)
    : M FieldRef.t :=
  let template :=
    default "{{avatar.$thumbnail}} {{first_name}} {{last_name}}" template in
  field ← uuid name (Some CreateUser) None
            ⤳ FieldRef.interface "select-dropdown-m2o"
                  (Some {[ "template" := JStr template ]})
            ⤳ FieldRef.display "user" None;
  FieldRef.relation (Some "directus_users") field
    ⤳ FieldRef.on_delete "SET NULL";;
  mret field.

Definition role_created (name : jsstring) (template : option jsstring)
    : M FieldRef.t :=
  let template := default "{{name}}" template in
  field ← uuid name (Some CreateRole) None
            ⤳ FieldRef.interface "select-dropdown-m2o"
                  (Some {[ "template" := JStr template ]})
            ⤳ FieldRef.display "related-values"
                  (Some {[ "template" := JStr template ]});
  FieldRef.relation (Some "directus_roles") field
    ⤳ FieldRef.on_delete "SET NULL";;
  mret field.

Definition user_updated (name : jsstring) (template : option jsstring)
    : M FieldRef.t :=
  let template :=
    default "{{avatar.$thumbnail}} {{first_name}} {{last_name}}" template in
  field ← uuid name None (Some UpdateUser)
            ⤳ FieldRef.interface "select-dropdown-m2o"
                  (Some {[ "template" := JStr template ]})
            ⤳ FieldRef.display "user" None;
  FieldRef.relation (Some "directus_users") field
    ⤳ FieldRef.on_delete "SET NULL";;
  mret field.

Definition role_updated (name : jsstring) (template : option jsstring)
    : M FieldRef.t :=
  let template := default "{{name}}" template in
  field ← uuid name None (Some UpdateRole)
            ⤳ FieldRef.interface "select-dropdown-m2o"
                  (Some {[ "template" := JStr template ]})
            ⤳ FieldRef.display "related-values"
                  (Some {[ "template" := JStr template ]});
  FieldRef.relation (Some "directus_roles") field
    ⤳ FieldRef.on_delete "SET NULL";;
  mret field.

Definition schema_of (max_length numeric_precision numeric_scale : option number)
    : FieldSchema.t :=
  {| FieldSchema.max_length := max_length;
     FieldSchema.numeric_precision := numeric_precision;
     FieldSchema.numeric_scale := numeric_scale;
     FieldSchema.nullable := None;
     FieldSchema.primary_key := None;
     FieldSchema.autoincrement := None |}.

Definition datetime (name : jsstring) (on_create on_updated : option bool)
    : M FieldRef.t :=
  let on_create := default false on_create in
  let on_updated := default false on_updated in
  field ← field name "datetime" None None;
  date_special field on_create on_updated.

Definition timestamp (name : jsstring) (on_create on_updated : option bool)
    : M FieldRef.t :=
  let on_create := default false on_create in
  let on_updated := default false on_updated in
  field ← field name "timestamp" None None;
  date_special field on_create on_updated.

Definition date (name : jsstring) (on_create on_updated : option bool)
    : M FieldRef.t :=
  let on_create := default false on_create in
  let on_updated := default false on_updated in
  field ← field name "date" None None;
  date_special field on_create on_updated.

Definition time (name : jsstring) (on_create on_updated : option bool)
    : M FieldRef.t :=
  let on_create := default false on_create in
  let on_updated := default false on_updated in
  field ← field name "time" None None;
  date_special field on_create on_updated.

Definition date_created (name : jsstring) : M FieldRef.t :=
  timestamp name (Some true) None
    ⤳ FieldRef.interface "datetime" None
    ⤳ FieldRef.display "datetime" (Some {[ "relative" := JBool true ]}).

Definition date_updated (name : jsstring) : M FieldRef.t :=
  timestamp name (Some false) (Some true)
    ⤳ FieldRef.interface "datetime" None
    ⤳ FieldRef.display "datetime" (Some {[ "relative" := JBool true ]}).

Definition string (name : jsstring) (max_length : option number) : M FieldRef.t :=
  let max_length := default 255 max_length in
  field name "string" (Some (schema_of (Some max_length) None None)) None.

Definition text (name : jsstring) : M FieldRef.t :=
  field name "text" None None.

Definition boolean (name : jsstring) : M FieldRef.t :=
  field name "boolean" None None ⤳ FieldRef.special ["boolean"].

Definition integer (name : jsstring) (precision : option number) : M FieldRef.t :=
  let precision := default 32 precision in
  field name "integer" (Some (schema_of None (Some precision) None)) None.

Definition bigInteger (name : jsstring) (precision : option number) : M FieldRef.t :=
  let precision := default 64 precision in
  field name "bigInteger" (Some (schema_of None (Some precision) None)) None.

Definition float (name : jsstring) (precision scale : option number) : M FieldRef.t :=
  let precision := default 10 precision in
  let scale := default 5 scale in
  field name "float" (Some (schema_of None (Some precision) (Some scale))) None.

Definition decimal (name : jsstring) (precision scale : option number) : M FieldRef.t :=
  let precision := default 10 precision in
  let scale := default 5 scale in
  field name "decimal" (Some (schema_of None (Some precision) (Some scale))) None.

Definition json (name : jsstring) : M FieldRef.t :=
  field name "json" None None ⤳ FieldRef.special ["json"].

Definition csv (name : jsstring) : M FieldRef.t :=
  field name "csv" None None ⤳ FieldRef.special ["csv"].

Definition hash (name : jsstring) : M FieldRef.t :=
  field name "hash" None None ⤳ FieldRef.special ["hash"].

Definition geometryPoint (name : jsstring) : M FieldRef.t :=
  field name "geometry.Point" None None.

Definition geometryLineString (name : jsstring) : M FieldRef.t :=
  field name "geometry.LineString" None None.

Definition geometryPolygon (name : jsstring) : M FieldRef.t :=
  field name "geometry.Polygon" None None.

Definition geometryMultiPoint (name : jsstring) : M FieldRef.t :=
  field name "geometry.MultiPoint" None None.

Definition geometryMultiLineString (name : jsstring) : M FieldRef.t :=
  field name "geometry.MultiLineString" None None.

Definition geometryMultiPolygon (name : jsstring) : M FieldRef.t :=
  field name "geometry.MultiPolygon" None None.

Definition file (name : jsstring) : M FieldRef.t :=
  field ← field name "uuid" None None
            ⤳ FieldRef.special ["file"]
            ⤳ FieldRef.interface "file" None
            ⤳ FieldRef.display "file" None;
  FieldRef.relation (Some "directus_files") field
    ⤳ FieldRef.on_delete "SET NULL";;
  mret field.

Definition image (name : jsstring) : M FieldRef.t :=
  field ← field name "uuid" None None
            ⤳ FieldRef.special ["file"]
            ⤳ FieldRef.interface "file-image" None
            ⤳ FieldRef.display "image" None;
  FieldRef.relation (Some "directus_files") field
    ⤳ FieldRef.on_delete "SET NULL";;
  mret field.

Definition render : M Rendered.t :=
  s ← get;
  mret {| Rendered.collection := This.name s;
          Rendered.schema := This.schema s;
          Rendered.meta := This.meta s;
          Rendered.fields := Field.render <$> This.fields s |}.

End Collection.

(** ** Calls as data *)

(** The field-declaring methods with their arguments; an optional argument
    that is [None] was left out by the caller. *)
Inductive FieldCall : Type :=
| call_field (name type : jsstring)
    (schema : option FieldSchema.t) (meta : option FieldMeta.t)
| call_primary_key (name : jsstring) (type : PkType)
| call_user_created (name : jsstring) (template : option jsstring)
| call_role_created (name : jsstring) (template : option jsstring)
| call_user_updated (name : jsstring) (template : option jsstring)
| call_role_updated (name : jsstring) (template : option jsstring)
| call_date_created (name : jsstring)
| call_date_updated (name : jsstring)
| call_string (name : jsstring) (max_length : option number)
| call_text (name : jsstring)
| call_boolean (name : jsstring)
| call_integer (name : jsstring) (precision : option number)
| call_bigInteger (name : jsstring) (precision : option number)
| call_float (name : jsstring) (precision scale : option number)
| call_decimal (name : jsstring) (precision scale : option number)
| call_datetime (name : jsstring) (on_create on_updated : option bool)
| call_timestamp (name : jsstring) (on_create on_updated : option bool)
| call_date (name : jsstring) (on_create on_updated : option bool)
| call_time (name : jsstring) (on_create on_updated : option bool)
| call_json (name : jsstring)
| call_csv (name : jsstring)
| call_uuid (name : jsstring) (on_create : option OnCreate)
    (on_update : option OnUpdate)
| call_hash (name : jsstring)
| call_geometryPoint (name : jsstring)
| call_geometryLineString (name : jsstring)
| call_geometryPolygon (name : jsstring)
| call_geometryMultiPoint (name : jsstring)
| call_geometryMultiLineString (name : jsstring)
| call_geometryMultiPolygon (name : jsstring)
| call_file (name : jsstring)
| call_image (name : jsstring).

Definition declare (c : FieldCall) : M FieldRef.t :=
  match c with
  | call_field name type schema meta => Collection.field name type schema meta
  | call_primary_key name type => Collection.primary_key name type
  | call_user_created name template => Collection.user_created name template
  | call_role_created name template => Collection.role_created name template
  | call_user_updated name template => Collection.user_updated name template
  | call_role_updated name template => Collection.role_updated name template
  | call_date_created name => Collection.date_created name
  | call_date_updated name => Collection.date_updated name
  | call_string name max_length => Collection.string name max_length
  | call_text name => Collection.text name
  | call_boolean name => Collection.boolean name
  | call_integer name precision => Collection.integer name precision
  | call_bigInteger name precision => Collection.bigInteger name precision
  | call_float name precision scale => Collection.float name precision scale
  | call_decimal name precision scale => Collection.decimal name precision scale
  | call_datetime name on_create on_updated =>
      Collection.datetime name on_create on_updated
  | call_timestamp name on_create on_updated =>
      Collection.timestamp name on_create on_updated
  | call_date name on_create on_updated => Collection.date name on_create on_updated
  | call_time name on_create on_updated => Collection.time name on_create on_updated
  | call_json name => Collection.json name
  | call_csv name => Collection.csv name
  | call_uuid name on_create on_update => Collection.uuid name on_create on_update
  | call_hash name => Collection.hash name
  | call_geometryPoint name => Collection.geometryPoint name
  | call_geometryLineString name => Collection.geometryLineString name
  | call_geometryPolygon name => Collection.geometryPolygon name
  | call_geometryMultiPoint name => Collection.geometryMultiPoint name
  | call_geometryMultiLineString name => Collection.geometryMultiLineString name
  | call_geometryMultiPolygon name => Collection.geometryMultiPolygon name
  | call_file name => Collection.file name
  | call_image name => Collection.image name
  end.

(** The name the caller gave to the field. *)
Definition call_name (c : FieldCall) : jsstring :=
  match c with
  | call_field name _ _ _ | call_primary_key name _
  | call_user_created name _ | call_role_created name _
  | call_user_updated name _ | call_role_updated name _
  | call_date_created name | call_date_updated name
  | call_string name _ | call_text name | call_boolean name
  | call_integer name _ | call_bigInteger name _
  | call_float name _ _ | call_decimal name _ _
  | call_datetime name _ _ | call_timestamp name _ _
  | call_date name _ _ | call_time name _ _
  | call_json name | call_csv name | call_uuid name _ _ | call_hash name
  | call_geometryPoint name | call_geometryLineString name
  | call_geometryPolygon name | call_geometryMultiPoint name
  | call_geometryMultiLineString name | call_geometryMultiPolygon name
  | call_file name | call_image name => name
  end.

(** Every public method of the class. *)
Inductive Call : Type :=
| call_declare (c : FieldCall)
| call_findField (field : jsstring)
| call_hidden (value : option bool)
| call_singleton (value : option bool)
| call_sort (field : jsstring)
| call_archive (field : jsstring) (archive unarchive : option (option jsstring))
    (filter : option bool)
| call_accountability (value : option Accountability)
| call_translation (language translation : jsstring)
    (singular plural : option jsstring)
| call_relation (field : jsstring) (related_collection : option jsstring)
| call_render.

(** One call, its return value dropped. *)
Definition exec (c : Call) : M unit :=
  match c with
  | call_declare c => declare c;; mret tt
  | call_findField field => Collection.findField field;; mret tt
  | call_hidden value => Collection.hidden value
  | call_singleton value => Collection.singleton value
  | call_sort field => Collection.sort field
  | call_archive field archive unarchive filter =>
      Collection.archive field archive unarchive filter
  | call_accountability value => Collection.accountability value
  | call_translation language translation singular plural =>
      Collection.translation language translation singular plural
  | call_relation field related_collection =>
      Collection.relation field related_collection
  | call_render => Collection.render;; mret tt
  end.

(** A sequence of calls, made one after the other on the same instance. *)
Fixpoint declare_all (cs : list FieldCall) : M (list FieldRef.t) :=
  match cs with
  | [] => mret []
  | c :: cs => field ← declare c; fields ← declare_all cs; mret (field :: fields)
  end.

Fixpoint exec_all (cs : list Call) : M unit :=
  match cs with
  | [] => mret tt
  | c :: cs => exec c;; exec_all cs
  end.

Definition is_declare (c : Call) : bool :=
  match c with call_declare _ => true | _ => false end.

(** ** What a call leaves behind *)

(** The instance [s] after one more field [f] was pushed, with the registry
    in state [b]. *)
Definition pushed (b : Builder.t) (f : Field.t) (s : This.t) : This.t :=
  {| This.builder := b; This.name := This.name s; This.schema := This.schema s;
     This.meta := This.meta s; This.fields := This.fields s ++ [f] |}.

(** What one declaring call adds: the fields and the registrations found
    after the call was made on an instance that had none. *)
Definition effect (owner : jsstring) (c : FieldCall) : list Field.t * Builder.t :=
  match run (declare c) (Collection.constructor [] owner None None None) with
  | Ok (_, s) => (This.fields s, This.builder s)
  | Throw _ => ([], [])
  end.

Definition after_effect (e : list Field.t * Builder.t) (s : This.t) : This.t :=
  {| This.builder := This.builder s ++ e.2; This.name := This.name s;
     This.schema := This.schema s; This.meta := This.meta s;
     This.fields := This.fields s ++ e.1 |}.

(** [effect] read off a run on any instance. *)
Definition added_fields (s : This.t) (r : Result (FieldRef.t * This.t)) : list Field.t :=
  match r with
  | Ok (_, s') => drop (length (This.fields s)) (This.fields s')
  | Throw _ => []
  end.

Definition declare_state (s : This.t) (c : FieldCall) : This.t :=
  after_effect (effect (This.name s) c) s.

(** The call declares one uuid-typed field [name] with the single special
    tag [tag] and the given interface and display, and registers the edge
    from that field to [related] with delete policy [SET NULL]. *)
Definition declares_reference (call : M FieldRef.t) (s : This.t)
    (name tag : jsstring) (interface : jsstring) (options : option JsObject)
    (display : jsstring) (related : jsstring) : Prop :=
  ∃ ref s' f,
    run call s = Ok (ref, s')
    ∧ This.fields s' = This.fields s ++ [f]
    ∧ This.fields s' !! ref = Some f
    ∧ Field.name f = name
    ∧ Field.type f = "uuid"
    ∧ FieldMeta.special (Field.meta f) = [tag]
    ∧ FieldMeta.interface (Field.meta f) = Some interface
    ∧ FieldMeta.interface_options (Field.meta f) = options
    ∧ FieldMeta.display (Field.meta f) = Some display
    ∧ This.builder s'
      = This.builder s
        ++ [ {| Builder.collection := This.name s;
                Builder.field := name;
                Builder.related_collection := Some related;
                Builder.on_delete := Some "SET NULL" |} ].

(** The special tags of the field that a call declares. *)
Definition special_tags (owner : jsstring) (c : FieldCall) : list (list jsstring) :=
  (λ f, FieldMeta.special (Field.meta f)) <$> (effect owner c).1.

(** The entries of [meta.translations], none while the key is unset. *)
Definition translations_of (s : This.t) : list CollectionMeta.Translation :=
  match CollectionMeta.translations (This.meta s) with
  | Some entries => entries
  | None => []
  end.

Definition call_of_translation (e : CollectionMeta.Translation) : Call :=
  call_translation (CollectionMeta.language e) (CollectionMeta.translation e)
    (CollectionMeta.singular e) (CollectionMeta.plural e).

(** ** A worked example *)

Definition articles : M Rendered.t :=
  Collection.primary_key "id" PkInteger;;
  Collection.string "title" None;;
  Collection.boolean "published";;
  Collection.user_created "author" None;;
  Collection.image "cover";;
  Collection.uuid "owner" (Some CreateUser) (Some UpdateRole);;
  Collection.sort "title";;
  Collection.archive "status" None (Some None) None;;
  Collection.translation "en" "Articles" (Some "article") None;;
  Collection.render.

Definition articles_output : option (Rendered.t * Builder.t) :=
  match run articles (Collection.constructor [] "articles" None None None) with
  | Ok (out, s) => Some (out, This.builder s)
  | Throw _ => None
  end.

(** ** Vocabulary for the remaining methods *)

(** The call is a declaring call that gives the name [field]. *)
Definition declares_name (c : Call) (field : jsstring) : bool :=
  match c with
  | call_declare c => bool_decide (call_name c = field)
  | _ => false
  end.

(** The call pushes the field [{collection: this.name, name, type, schema,
    meta}], returns the reference to it, and changes nothing else of the
    instance or of the registry. *)
Definition declares_only (call : M FieldRef.t) (s : This.t)
    (name type : jsstring) (schema : FieldSchema.t) (meta : FieldMeta.t) : Prop :=
  run call s
  = Ok (length (This.fields s),
        {| This.builder := This.builder s;
           This.name := This.name s;
           This.schema := This.schema s;
           This.meta := This.meta s;
           This.fields :=
             This.fields s
             ++ [ {| Field.collection := This.name s; Field.name := name;
                     Field.type := type; Field.schema := schema;
                     Field.meta := meta |} ] |}).

(** A field meta that holds special tags and nothing else. *)
Definition tagged (tags : list jsstring) : FieldMeta.t :=
  {| FieldMeta.interface := None; FieldMeta.interface_options := None;
     FieldMeta.display := None; FieldMeta.display_options := None;
     FieldMeta.special := tags |}.

(** The system collection that a declaring call relates its field to. *)
Definition system_collection (c : FieldCall) : option jsstring :=
  match c with
  | call_user_created _ _ | call_user_updated _ _ => Some "directus_users"
  | call_role_created _ _ | call_role_updated _ _ => Some "directus_roles"
  | call_file _ | call_image _ => Some "directus_files"
  | _ => None
  end.

(** The calls that write [this.meta] and nothing else. *)
Definition writes_meta_only (c : Call) : bool :=
  match c with
  | call_hidden _ | call_singleton _ | call_sort _ | call_archive _ _ _ _
  | call_accountability _ | call_translation _ _ _ _ => true
  | _ => false
  end.

(** The type names that the typed helpers of the class pass to [field]. *)
Definition helper_types : list jsstring :=
  [ "string"; "text"; "boolean"; "integer"; "bigInteger"; "float"; "decimal";
    "datetime"; "timestamp"; "date"; "time"; "json"; "csv"; "uuid"; "hash";
    "geometry.Point"; "geometry.LineString"; "geometry.Polygon";
    "geometry.MultiPoint"; "geometry.MultiLineString";
    "geometry.MultiPolygon" ].

(** Every field of the instance names this collection as its owner. *)
Definition owns_fields (s : This.t) : Prop :=
  Forall (λ f, Field.collection f = This.name s) (This.fields s).

(** * Properties *)

(** ** The registry *)

Lemma source_is_refl (c f : jsstring) (related policy : option jsstring) :
  Builder.source_is c f
    {| Builder.collection := c; Builder.field := f;
       Builder.related_collection := related; Builder.on_delete := policy |} = true.
Proof.
  unfold Builder.source_is; simpl.
  by rewrite !bool_decide_eq_true_2.
Qed.

(** Choosing the policy right after the registration completes the edge that
    was just appended and leaves the log before it alone. *)
Lemma set_on_delete_relation (c f policy : jsstring) (related : option jsstring)
    (b : Builder.t) :
  Builder.set_on_delete c f policy (Builder.relation c f related b)
  = b ++ [ {| Builder.collection := c; Builder.field := f;
              Builder.related_collection := related;
              Builder.on_delete := Some policy |} ].
Proof.
  unfold Builder.set_on_delete, Builder.relation.
  rewrite rev_app_distr; simpl.
  rewrite source_is_refl; simpl.
  by rewrite rev_involutive.
Qed.

(** ** Running method bodies *)

Lemma run_bind {A B : Type} (m : M A) (k : A → M B) (s : This.t) :
  run (m ≫= k) s
  = match run m s with
    | Ok (a, s') => run (k a) s'
    | Throw e => Throw e
    end.
Proof. reflexivity. Qed.

Lemma run_ret {A : Type} (a : A) (s : This.t) : run (mret a) s = Ok (a, s).
Proof. reflexivity. Qed.

Lemma run_get (s : This.t) : run get s = Ok (s, s).
Proof. reflexivity. Qed.

Lemma run_modify (g : This.t → This.t) (s : This.t) :
  run (modify g) s = Ok (tt, g s).
Proof. reflexivity. Qed.

Lemma lookup_pushed (fs : list Field.t) (f : Field.t) :
  (fs ++ [f]) !! length fs = Some f.
Proof. by apply list_lookup_middle. Qed.

Lemma insert_pushed (fs : list Field.t) (f g : Field.t) :
  <[length fs := g]> (fs ++ [f]) = fs ++ [g].
Proof.
  rewrite insert_app_r_alt by lia.
  by rewrite Nat.sub_diag.
Qed.

Lemma run_field (name type : jsstring) (schema : option FieldSchema.t)
    (meta : option FieldMeta.t) (s : This.t) :
  run (Collection.field name type schema meta) s
  = Ok (length (This.fields s),
        pushed (This.builder s) (Field.new (This.name s) name type schema meta) s).
Proof. reflexivity. Qed.

(** A setter called on the reference that [field] returned changes the field
    that was pushed last, and only it. *)
Lemma run_update (g : Field.t → Field.t) (b : Builder.t) (f : Field.t) (s : This.t) :
  run (FieldRef.update g (length (This.fields s))) (pushed b f s)
  = Ok (length (This.fields s), pushed b (g f) s).
Proof.
  unfold FieldRef.update, FieldRef.deref, run, mbind, M_bind, modify, mret, M_ret.
  simpl. rewrite lookup_pushed.
  unfold pushed, This.with_fields; simpl.
  by rewrite insert_pushed.
Qed.

Lemma run_relation (related : option jsstring) (b : Builder.t) (f : Field.t)
    (s : This.t) :
  run (FieldRef.relation related (length (This.fields s))) (pushed b f s)
  = Ok (length (This.fields s), pushed (Field.relation related f b) f s).
Proof.
  unfold FieldRef.relation, FieldRef.deref, run, mbind, M_bind, modify, mret, M_ret.
  simpl. by rewrite lookup_pushed.
Qed.

Lemma run_on_delete (policy : jsstring) (b : Builder.t) (f : Field.t) (s : This.t) :
  run (FieldRef.on_delete policy (length (This.fields s))) (pushed b f s)
  = Ok (length (This.fields s), pushed (Field.on_delete policy f b) f s).
Proof.
  unfold FieldRef.on_delete, FieldRef.deref, run, mbind, M_bind, modify, mret, M_ret.
  simpl. by rewrite lookup_pushed.
Qed.

(** Symbolic execution of a method body that declares one field. *)
Ltac run_step :=
  first
    [ rewrite run_bind
    | rewrite run_field
    | rewrite run_update
    | rewrite run_relation
    | rewrite run_on_delete
    | rewrite run_ret
    | progress cbv beta iota zeta
    | progress cbn [length Nat.eqb negb app default from_option id]
    | progress unfold date_special, FieldRef.notNullable, FieldRef.pk,
        FieldRef.autoincrement, FieldRef.special, FieldRef.interface,
        FieldRef.display ].

Ltac run_method := repeat run_step.

Ltac unfold_methods :=
  unfold declare, Collection.primary_key, Collection.user_created,
    Collection.role_created, Collection.user_updated, Collection.role_updated,
    Collection.date_created, Collection.date_updated, Collection.string,
    Collection.text, Collection.boolean, Collection.integer,
    Collection.bigInteger, Collection.float, Collection.decimal,
    Collection.datetime, Collection.timestamp, Collection.date,
    Collection.time, Collection.json, Collection.csv, Collection.uuid,
    Collection.hash, Collection.geometryPoint, Collection.geometryLineString,
    Collection.geometryPolygon, Collection.geometryMultiPoint,
    Collection.geometryMultiLineString, Collection.geometryMultiPolygon,
    Collection.file, Collection.image.

Ltac normalise_state :=
  unfold pushed, after_effect, Field.on_delete, Field.relation;
  cbn [This.fields This.builder This.name This.schema This.meta pushed
       after_effect Collection.constructor fst snd app
       Field.collection Field.name Field.on_delete Field.relation
       Field.display Field.interface Field.special Field.new
       Field.with_meta Field.with_schema Field.notNullable Field.pk
       Field.autoincrement].

Ltac split_arguments :=
  repeat match goal with
         | x : option bool |- _ => destruct x
         | x : bool |- _ => destruct x
         | x : option OnCreate |- _ => destruct x
         | x : option OnUpdate |- _ => destruct x
         | x : PkType |- _ => destruct x
         end.

(** A declaring call pushes exactly what [effect] says, whatever the
    instance holds already, and returns the position of the pushed field. *)
Lemma declare_effect (c : FieldCall) (s : This.t) :
  run (declare c) s
  = Ok (length (This.fields s), after_effect (effect (This.name s) c) s).
Proof.
  unfold effect.
  set (s0 := Collection.constructor [] (This.name s) None None None).
  destruct c; split_arguments; unfold_methods; run_method;
    subst s0; normalise_state; rewrite ?set_on_delete_relation, ?app_nil_r;
    reflexivity.
Qed.

Lemma declare_effect_fields (c : FieldCall) (s : This.t) :
  added_fields s (run (declare c) s) = (effect (This.name s) c).1.
Proof.
  rewrite declare_effect. cbn [added_fields after_effect This.fields].
  by rewrite drop_app_length.
Qed.

(** Each declaring call adds one field, which carries the name it was given
    and the name of the collection that owns it. *)
Lemma effect_one_field (owner : jsstring) (c : FieldCall) :
  ∃ f, (effect owner c).1 = [f]
       ∧ Field.name f = call_name c ∧ Field.collection f = owner.
Proof.
  unfold effect.
  set (s0 := Collection.constructor [] owner None None None).
  destruct c; split_arguments; unfold_methods; run_method;
    subst s0; normalise_state; eexists; (split; [reflexivity | split; reflexivity]).
Qed.

Lemma declare_all_run (cs : list FieldCall) (s : This.t) :
  run (declare_all cs) s
  = Ok (seq (length (This.fields s)) (length cs), fold_left declare_state cs s).
Proof.
  revert s; induction cs as [| c cs IH]; intros s; [reflexivity |].
  cbn [declare_all]. rewrite run_bind, declare_effect.
  cbv beta iota. rewrite run_bind, IH. cbv beta iota. rewrite run_ret.
  cbn [fold_left length seq].
  replace (length (This.fields (after_effect (effect (This.name s) c) s)))
    with (S (length (This.fields s))); [reflexivity |].
  unfold after_effect; cbn [This.fields].
  destruct (effect_one_field (This.name s) c) as (f & -> & _).
  rewrite length_app. cbn [length]. by rewrite Nat.add_1_r.
Qed.

Lemma declare_all_name (cs : list FieldCall) (s : This.t) :
  This.name (fold_left declare_state cs s) = This.name s.
Proof.
  revert s; induction cs as [| c cs IH]; intros s; [reflexivity |].
  cbn [fold_left]. by rewrite IH.
Qed.

Lemma declare_all_schema_meta (cs : list FieldCall) (s : This.t) :
  This.schema (fold_left declare_state cs s) = This.schema s
  ∧ This.meta (fold_left declare_state cs s) = This.meta s.
Proof.
  revert s; induction cs as [| c cs IH]; intros s; [done |].
  cbn [fold_left]. destruct (IH (declare_state s c)) as [-> ->]. done.
Qed.

(** The fields that were there stay in front, and the declared ones follow
    in the order of the calls. *)
Lemma declare_all_fields (cs : list FieldCall) (s : This.t) :
  This.fields (fold_left declare_state cs s)
  = This.fields s ++ flat_map (λ c, (effect (This.name s) c).1) cs.
Proof.
  revert s; induction cs as [| c cs IH]; intros s.
  - cbn. by rewrite app_nil_r.
  - cbn [fold_left flat_map]. rewrite IH.
    cbn [declare_state after_effect This.fields This.name].
    by rewrite <- app_assoc.
Qed.

Lemma flat_map_effect_names (owner : jsstring) (cs : list FieldCall) :
  Field.name <$> flat_map (λ c, (effect owner c).1) cs = call_name <$> cs.
Proof.
  induction cs as [| c cs IH]; [reflexivity |].
  cbn [flat_map]. rewrite fmap_app, fmap_cons, IH.
  by destruct (effect_one_field owner c) as (f & -> & <- & _).
Qed.

Lemma flat_map_effect_length (owner : jsstring) (cs : list FieldCall) :
  length (flat_map (λ c, (effect owner c).1) cs) = length cs.
Proof.
  induction cs as [| c cs IH]; [reflexivity |].
  cbn [flat_map]. rewrite length_app, IH.
  by destruct (effect_one_field owner c) as (f & -> & _).
Qed.

Lemma run_render (s : This.t) :
  run Collection.render s
  = Ok ({| Rendered.collection := This.name s;
           Rendered.schema := This.schema s;
           Rendered.meta := This.meta s;
           Rendered.fields := Field.render <$> This.fields s |}, s).
Proof. reflexivity. Qed.

(** ** Declaration order *)

(** C1.  On a collection constructed without initial fields, after any
    sequence of field-declaring calls [render().fields] has as many elements
    as calls were made, and they are in the order of the calls: the [i]-th
    call returns the reference to position [i], the [i]-th element of the
    output is the rendering of the object at that position, it carries the
    name given to the [i]-th call, and it is the element that this call
    yields when it is made alone. *)
Theorem render_fields_follow_calls (b : Builder.t) (name : jsstring)
    (schema : option JsObject) (meta : option CollectionMeta.t)
    (calls : list FieldCall) :
  ∃ refs s' out,
    run (declare_all calls) (Collection.constructor b name schema meta None)
      = Ok (refs, s')
    ∧ run Collection.render s' = Ok (out, s')
    ∧ length (Rendered.fields out) = length calls
    ∧ refs = seq 0 (length calls)
    ∧ Rendered.fields out = Field.render <$> This.fields s'
    ∧ Field.out_field <$> Rendered.fields out = call_name <$> calls
    ∧ Rendered.fields out
      = flat_map (λ c, Field.render <$> (effect name c).1) calls.
Proof.
  set (s := Collection.constructor b name schema meta None).
  assert (Hfields :
    This.fields (fold_left declare_state calls s)
    = flat_map (λ c, (effect name c).1) calls).
  { rewrite declare_all_fields. reflexivity. }
  eexists _, _, _. split; [apply declare_all_run |].
  split; [apply run_render |].
  cbn [Rendered.fields]. rewrite Hfields.
  split; [by rewrite length_fmap, flat_map_effect_length |].
  split; [reflexivity |]. split; [reflexivity |].
  split.
  - rewrite <- list_fmap_compose.
    change (Field.out_field ∘ Field.render) with Field.name.
    apply flat_map_effect_names.
  - clear. induction calls as [| c cs IH]; [reflexivity |].
    cbn [flat_map]. by rewrite fmap_app, IH.
Qed.

(** X18.  With initial fields, as handed to the constructor or declared
    before, the newly declared ones come after them, still in the order of
    the calls. *)
Lemma render_fields_after_initial (s : This.t) (calls : list FieldCall) :
  ∃ refs s' out,
    run (declare_all calls) s = Ok (refs, s')
    ∧ run Collection.render s' = Ok (out, s')
    ∧ Rendered.fields out
      = (Field.render <$> This.fields s)
        ++ flat_map (λ c, Field.render <$> (effect (This.name s) c).1) calls.
Proof.
  eexists _, _, _. split; [apply declare_all_run |].
  split; [apply run_render |].
  cbn [Rendered.fields]. rewrite declare_all_fields, fmap_app. f_equal.
  induction calls as [| c cs IH]; [reflexivity |].
  cbn [flat_map]. by rewrite fmap_app, IH.
Qed.

(** ** Rendering *)

(** C10.  A collection constructed from a builder and a name alone renders
    as [{collection: name, schema: {}, meta: {}, fields: []}]. *)
Theorem render_fresh (b : Builder.t) (name : jsstring) :
  ∃ s, run Collection.render (Collection.constructor b name None None None)
       = Ok ({| Rendered.collection := name;
                Rendered.schema := ∅;
                Rendered.meta := CollectionMeta.empty;
                Rendered.fields := [] |}, s)
       ∧ This.schema (Collection.constructor b name None None None) = ∅
       ∧ This.meta (Collection.constructor b name None None None)
         = {| CollectionMeta.sort_field := None;
              CollectionMeta.archive_field := None;
              CollectionMeta.archive_value := None;
              CollectionMeta.unarchive_value := None;
              CollectionMeta.archive_app_filter := None;
              CollectionMeta.accountability := None;
              CollectionMeta.hidden := None;
              CollectionMeta.singleton := None;
              CollectionMeta.translations := None |}
       ∧ This.fields (Collection.constructor b name None None None) = [].
Proof. eexists. repeat split. Qed.

(** C8.  [render()] leaves the instance as it is, so a second call made
    right after the first returns an equal output; the output is
    [{collection: name, schema, meta, fields}] with [fields] the renderings
    of the field objects in the order of [this.fields]. *)
Theorem render_pure (s : This.t) :
  ∃ out,
    run Collection.render s = Ok (out, s)
    ∧ run (first ← Collection.render; second ← Collection.render;
           mret (first, second)) s = Ok ((out, out), s)
    ∧ out = {| Rendered.collection := This.name s;
               Rendered.schema := This.schema s;
               Rendered.meta := This.meta s;
               Rendered.fields := map Field.render (This.fields s) |}.
Proof. eexists. repeat split. Qed.

(** ** Field helpers *)

Ltac run_helper :=
  split_arguments; unfold_methods; run_method; normalise_state;
  rewrite ?set_on_delete_relation.

(** C2.  [primary_key(name, type)] declares a field of the given type that
    is non-nullable and flagged as primary key.  For ["integer"] the
    autoincrement flag is set as well and there is no special tag; for
    ["uuid"] the special tags are [["uuid"]] and the autoincrement flag stays
    unset; for ["string"] there is neither. *)
Theorem primary_key_flags (name : jsstring) (type : PkType) (s : This.t) :
  ∃ ref s' f,
    run (Collection.primary_key name type) s = Ok (ref, s')
    ∧ This.fields s' = This.fields s ++ [f]
    ∧ This.fields s' !! ref = Some f
    ∧ Field.name f = name
    ∧ Field.type f
      = match type with
        | PkInteger => "integer" | PkUuid => "uuid" | PkString => "string"
        end
    ∧ FieldSchema.nullable (Field.schema f) = Some false
    ∧ FieldSchema.primary_key (Field.schema f) = Some true
    ∧ FieldSchema.autoincrement (Field.schema f)
      = match type with PkInteger => Some true | _ => None end
    ∧ FieldMeta.special (Field.meta f)
      = match type with PkUuid => ["uuid"] | _ => [] end
    ∧ Field.out_schema (Field.render f) = Field.schema f
    ∧ Field.out_meta (Field.render f) = Field.meta f.
Proof.
  destruct type; run_helper;
    (eexists _, _, _; split; [reflexivity |]; cbn [This.fields];
     split; [reflexivity |]; split; [apply lookup_pushed |]; repeat split).
Qed.

(** C3.  [uuid(name, on_create, on_update)] declares a uuid-typed field
    whose special tags are the tag of [on_create], when it is given, followed
    by the tag of [on_update], when it is given; and
    [uuid("owner", "user", "role")] has exactly
    [["user-created"; "role-updated"]]. *)
Theorem uuid_special_tags (name : jsstring) (on_create : option OnCreate)
    (on_update : option OnUpdate) (s : This.t) :
  (∃ ref s' f,
     run (Collection.uuid name on_create on_update) s = Ok (ref, s')
     ∧ This.fields s' = This.fields s ++ [f]
     ∧ This.fields s' !! ref = Some f
     ∧ Field.name f = name
     ∧ Field.type f = "uuid"
     ∧ FieldMeta.special (Field.meta f)
       = match on_create with
         | Some CreateUuid => ["uuid"]
         | Some CreateUser => ["user-created"]
         | Some CreateRole => ["role-created"]
         | None => []
         end
         ++ match on_update with
            | Some UpdateUser => ["user-updated"]
            | Some UpdateRole => ["role-updated"]
            | None => []
            end)
  ∧ (∃ ref s' f,
       run (Collection.uuid "owner" (Some CreateUser) (Some UpdateRole)) s
         = Ok (ref, s')
       ∧ This.fields s' !! ref = Some f
       ∧ FieldMeta.special (Field.out_meta (Field.render f))
         = ["user-created"; "role-updated"]).
Proof.
  split.
  - destruct on_create as [[] |], on_update as [[] |]; run_helper;
      (eexists _, _, _; split; [reflexivity |]; cbn [This.fields];
       split; [reflexivity |]; split; [apply lookup_pushed |]; repeat split).
  - clear on_create on_update. run_helper.
    eexists _, _, _; split; [reflexivity |]; cbn [This.fields].
    split; [apply lookup_pushed | reflexivity].
Qed.

Ltac solve_declares_reference :=
  unfold declares_reference; run_helper;
  eexists _, _, _; split; [reflexivity |]; cbn [This.fields This.builder];
  split; [reflexivity |]; split; [apply lookup_pushed |]; repeat split.

(** C4.  [user_created], [role_created], [user_updated] and [role_updated]
    each declare a uuid-typed field with the matching special tag, give it an
    interface and a display, and register a relation from it to
    [directus_users] (the [user_] helpers) or [directus_roles] (the [role_]
    helpers) with delete policy [SET NULL].  The tags of the [_created]
    helpers are those of [uuid(name, kind)], the tags of the [_updated]
    helpers those of [uuid(name, null, kind)]. *)
Theorem stamp_helpers (name : jsstring) (template : option jsstring) (s : This.t) :
  declares_reference (Collection.user_created name template) s
    name "user-created" "select-dropdown-m2o"
    (Some {[ "template" :=
               JStr (default "{{avatar.$thumbnail}} {{first_name}} {{last_name}}"
                       template) ]})
    "user" "directus_users"
  ∧ declares_reference (Collection.role_created name template) s
      name "role-created" "select-dropdown-m2o"
      (Some {[ "template" := JStr (default "{{name}}" template) ]})
      "related-values" "directus_roles"
  ∧ declares_reference (Collection.user_updated name template) s
      name "user-updated" "select-dropdown-m2o"
      (Some {[ "template" :=
                 JStr (default "{{avatar.$thumbnail}} {{first_name}} {{last_name}}"
                         template) ]})
      "user" "directus_users"
  ∧ declares_reference (Collection.role_updated name template) s
      name "role-updated" "select-dropdown-m2o"
      (Some {[ "template" := JStr (default "{{name}}" template) ]})
      "related-values" "directus_roles"
  ∧ special_tags (This.name s) (call_user_created name template)
    = special_tags (This.name s) (call_uuid name (Some CreateUser) None)
  ∧ special_tags (This.name s) (call_role_created name template)
    = special_tags (This.name s) (call_uuid name (Some CreateRole) None)
  ∧ special_tags (This.name s) (call_user_updated name template)
    = special_tags (This.name s) (call_uuid name None (Some UpdateUser))
  ∧ special_tags (This.name s) (call_role_updated name template)
    = special_tags (This.name s) (call_uuid name None (Some UpdateRole)).
Proof.
  split; [solve_declares_reference |].
  split; [solve_declares_reference |].
  split; [solve_declares_reference |].
  split; [solve_declares_reference |].
  unfold special_tags. rewrite <- !declare_effect_fields.
  repeat split; unfold_methods; run_method;
    unfold added_fields, pushed; cbn [This.fields];
    rewrite !drop_app_length; reflexivity.
Qed.

(** C5.  [file(name)] and [image(name)] both declare a uuid-typed field with
    the special tag ["file"] and both register a relation to
    [directus_files] with delete policy [SET NULL].  The two fields, and the
    instances the two calls leave behind, agree on everything except the
    interface name ([file] against [file-image]) and the display name
    ([file] against [image]). *)
Theorem file_image_differ_in_names (name : jsstring) (s : This.t) :
  declares_reference (Collection.file name) s
    name "file" "file" None "file" "directus_files"
  ∧ declares_reference (Collection.image name) s
      name "file" "file-image" None "image" "directus_files"
  ∧ ∃ ref s1 s2 f1 f2,
      run (Collection.file name) s = Ok (ref, s1)
      ∧ run (Collection.image name) s = Ok (ref, s2)
      ∧ This.fields s1 = This.fields s ++ [f1]
      ∧ This.fields s2 = This.fields s ++ [f2]
      ∧ This.builder s1 = This.builder s2
      ∧ This.name s1 = This.name s2
      ∧ This.schema s1 = This.schema s2
      ∧ This.meta s1 = This.meta s2
      ∧ Field.out_field (Field.render f1) = Field.out_field (Field.render f2)
      ∧ Field.out_type (Field.render f1) = Field.out_type (Field.render f2)
      ∧ Field.out_schema (Field.render f1) = Field.out_schema (Field.render f2)
      ∧ FieldMeta.special (Field.out_meta (Field.render f1))
        = FieldMeta.special (Field.out_meta (Field.render f2))
      ∧ FieldMeta.interface_options (Field.out_meta (Field.render f1))
        = FieldMeta.interface_options (Field.out_meta (Field.render f2))
      ∧ FieldMeta.display_options (Field.out_meta (Field.render f1))
        = FieldMeta.display_options (Field.out_meta (Field.render f2))
      ∧ FieldMeta.interface (Field.out_meta (Field.render f1)) = Some "file"
      ∧ FieldMeta.interface (Field.out_meta (Field.render f2)) = Some "file-image"
      ∧ FieldMeta.display (Field.out_meta (Field.render f1)) = Some "file"
      ∧ FieldMeta.display (Field.out_meta (Field.render f2)) = Some "image".
Proof.
  split; [solve_declares_reference |].
  split; [solve_declares_reference |].
  run_helper.
  eexists _, _, _, _, _. split; [reflexivity |]. split; [reflexivity |].
  cbn [This.fields This.builder This.name This.schema This.meta].
  repeat split.
Qed.

(** ** Collection metadata *)

(** C6.  On every instance, whatever its fields, [archive(f)] sets
    [archive_field] to [f], [archive_value] to ["archived"],
    [unarchive_value] to ["draft"] and [archive_app_filter] to [true], and
    changes nothing else.  With an explicit [null] for the two values they
    are set to [null], which is not the unset state of a new [meta]. *)
Theorem archive_defaults (f : jsstring) (s : This.t) :
  (∃ s',
     run (Collection.archive f None None None) s = Ok (tt, s')
     ∧ CollectionMeta.archive_field (This.meta s') = Some f
     ∧ CollectionMeta.archive_value (This.meta s') = Some (Some "archived")
     ∧ CollectionMeta.unarchive_value (This.meta s') = Some (Some "draft")
     ∧ CollectionMeta.archive_app_filter (This.meta s') = Some true
     ∧ CollectionMeta.sort_field (This.meta s')
       = CollectionMeta.sort_field (This.meta s)
     ∧ CollectionMeta.accountability (This.meta s')
       = CollectionMeta.accountability (This.meta s)
     ∧ CollectionMeta.hidden (This.meta s') = CollectionMeta.hidden (This.meta s)
     ∧ CollectionMeta.singleton (This.meta s')
       = CollectionMeta.singleton (This.meta s)
     ∧ CollectionMeta.translations (This.meta s')
       = CollectionMeta.translations (This.meta s)
     ∧ This.name s' = This.name s
     ∧ This.schema s' = This.schema s
     ∧ This.fields s' = This.fields s
     ∧ This.builder s' = This.builder s)
  ∧ (∃ s',
       run (Collection.archive f (Some None) (Some None) None) s = Ok (tt, s')
       ∧ CollectionMeta.archive_field (This.meta s') = Some f
       ∧ CollectionMeta.archive_value (This.meta s') = Some None
       ∧ CollectionMeta.unarchive_value (This.meta s') = Some None
       ∧ CollectionMeta.archive_app_filter (This.meta s') = Some true)
  ∧ CollectionMeta.archive_value CollectionMeta.empty = None
  ∧ CollectionMeta.unarchive_value CollectionMeta.empty = None
  ∧ (∃ s', run (Collection.archive f None None None)
             (Collection.constructor [] "c" None None None) = Ok (tt, s')
           ∧ run (Collection.findField f) s' = Ok (None, s')
           ∧ CollectionMeta.archive_field (This.meta s') = Some f).
Proof.
  split; [eexists; repeat split |].
  split; [eexists; repeat split |].
  split; [reflexivity |]. split; [reflexivity |].
  eexists; repeat split.
Qed.

Lemma run_translation (language translation : jsstring)
    (singular plural : option jsstring) (s : This.t) :
  run (Collection.translation language translation singular plural) s
  = Ok (tt,
        This.with_meta
          (CollectionMeta.set_translations
             (translations_of s
              ++ [ {| CollectionMeta.language := language;
                      CollectionMeta.translation := translation;
                      CollectionMeta.singular := singular;
                      CollectionMeta.plural := plural |} ])) s).
Proof.
  unfold Collection.translation, translations_of.
  destruct s as [b n sch m fs]; destruct m as [? ? ? ? ? ? ? ? [ts |]];
    reflexivity.
Qed.

(** Every method returns, keeps the name and the schema, and only ever adds
    at the end of [fields], of [meta.translations] and of the registry. *)
Lemma exec_returns (c : Call) (s : This.t) :
  ∃ s',
    run (exec c) s = Ok (tt, s')
    ∧ This.name s' = This.name s
    ∧ This.schema s' = This.schema s
    ∧ (∃ added, translations_of s' = translations_of s ++ added)
    ∧ (∃ added, This.fields s' = This.fields s ++ added
                ∧ length added = if is_declare c then 1%nat else 0%nat).
Proof.
  destruct c as [c | | | | | | | | |]; cbn [exec is_declare].
  - rewrite run_bind, declare_effect. cbv beta iota. rewrite run_ret.
    eexists; split; [reflexivity |]. cbn [after_effect This.name This.schema].
    split; [reflexivity |]. split; [reflexivity |].
    split; [by exists []; rewrite app_nil_r |].
    destruct (effect_one_field (This.name s) c) as (f & Hf & _).
    exists (effect (This.name s) c).1. split; [reflexivity | by rewrite Hf].
  - eexists; repeat split; by exists []; rewrite app_nil_r.
  - eexists; repeat split; by exists []; rewrite app_nil_r.
  - eexists; repeat split; by exists []; rewrite app_nil_r.
  - eexists; repeat split; by exists []; rewrite app_nil_r.
  - eexists; repeat split; by exists []; rewrite app_nil_r.
  - eexists; repeat split; by exists []; rewrite app_nil_r.
  - rewrite run_translation. eexists; split; [reflexivity |].
    split; [reflexivity |]. split; [reflexivity |].
    split; [by eexists | by exists []; rewrite app_nil_r].
  - eexists; repeat split; by exists []; rewrite app_nil_r.
  - eexists; repeat split; by exists []; rewrite app_nil_r.
Qed.

Lemma exec_all_returns (cs : list Call) (s : This.t) :
  ∃ s',
    run (exec_all cs) s = Ok (tt, s')
    ∧ This.name s' = This.name s
    ∧ This.schema s' = This.schema s
    ∧ (∃ added, translations_of s' = translations_of s ++ added)
    ∧ (∃ added, This.fields s' = This.fields s ++ added
                ∧ length added = length (filter is_declare cs)).
Proof.
  revert s; induction cs as [| c cs IH]; intros s.
  - exists s. repeat split; by exists []; rewrite app_nil_r.
  - destruct (exec_returns c s) as (s1 & Hrun & Hn & Hs & [t1 Ht] & f1 & Hf & Hl).
    destruct (IH s1) as (s2 & Hrun2 & Hn2 & Hs2 & [t2 Ht2] & f2 & Hf2 & Hl2).
    exists s2. cbn [exec_all]. rewrite run_bind, Hrun. cbv beta iota.
    split; [exact Hrun2 |]. split; [congruence |]. split; [congruence |].
    split.
    + exists (t1 ++ t2). by rewrite Ht2, Ht, app_assoc.
    + exists (f1 ++ f2). rewrite Hf2, Hf, app_assoc. split; [reflexivity |].
      rewrite length_app, Hl, Hl2. rewrite filter_cons.
      destruct (is_declare c); cbn; reflexivity.
Qed.

Lemma exec_translations (es : list CollectionMeta.Translation) (s : This.t) :
  ∃ s',
    run (exec_all (call_of_translation <$> es)) s = Ok (tt, s')
    ∧ translations_of s' = translations_of s ++ es
    ∧ (CollectionMeta.translations (This.meta s')
       = match es with
         | [] => CollectionMeta.translations (This.meta s)
         | _ :: _ => Some (translations_of s ++ es)
         end).
Proof.
  revert s; induction es as [| e es IH]; intros s.
  - exists s. split; [reflexivity |]. by rewrite app_nil_r.
  - rewrite fmap_cons. cbn [exec_all]. rewrite run_bind.
    unfold call_of_translation at 1. cbn [exec]. rewrite run_translation.
    cbv beta iota.
    match goal with |- context [run _ ?s1] => destruct (IH s1) as (s' & Hrun & Hts & Hkey) end.
    exists s'. split; [exact Hrun |].
    assert (Hall : translations_of s' = translations_of s ++ e :: es).
    { rewrite Hts. unfold translations_of at 1; cbn.
      destruct e; by rewrite <- app_assoc. }
    split; [exact Hall |].
    rewrite Hkey. destruct es as [| e' es]; [| by rewrite <- Hall, Hts].
    cbn. destruct e; reflexivity.
Qed.

(** C7.  [translation(language, translation, singular?, plural?)] makes
    [meta.translations] an array if it was unset and appends the entry
    [{language, translation, singular, plural}] to it, with [singular] and
    [plural] undefined when they are not supplied; calls made in a row
    append their entries in the order of the calls; and no method of the
    class removes or reorders the entries that are there. *)
Theorem translation_appends (language translation : jsstring)
    (singular plural : option jsstring)
    (e : CollectionMeta.Translation) (es : list CollectionMeta.Translation)
    (c : Call) (s : This.t) :
  (∃ s',
     run (Collection.translation language translation singular plural) s
       = Ok (tt, s')
     ∧ CollectionMeta.translations (This.meta s')
       = Some (match CollectionMeta.translations (This.meta s) with
               | Some entries => entries
               | None => []
               end
               ++ [ {| CollectionMeta.language := language;
                       CollectionMeta.translation := translation;
                       CollectionMeta.singular := singular;
                       CollectionMeta.plural := plural |} ])
     ∧ This.fields s' = This.fields s)
  ∧ (∃ s',
       run (Collection.translation "en" "English" None None;;
            Collection.translation "en" "English" None None)
         (Collection.constructor (This.builder s) (This.name s) None None None)
         = Ok (tt, s')
       ∧ CollectionMeta.translations (This.meta s')
         = Some [ {| CollectionMeta.language := "en";
                     CollectionMeta.translation := "English";
                     CollectionMeta.singular := None;
                     CollectionMeta.plural := None |};
                  {| CollectionMeta.language := "en";
                     CollectionMeta.translation := "English";
                     CollectionMeta.singular := None;
                     CollectionMeta.plural := None |} ])
  ∧ (∃ s',
       run (exec_all (call_of_translation <$> (e :: es))) s = Ok (tt, s')
       ∧ CollectionMeta.translations (This.meta s')
         = Some (translations_of s ++ e :: es))
  ∧ (∃ s' added,
       run (exec c) s = Ok (tt, s')
       ∧ translations_of s' = translations_of s ++ added).
Proof.
  split.
  { rewrite run_translation. eexists; split; [reflexivity |].
    split; reflexivity. }
  split; [eexists; split; reflexivity |].
  split.
  { destruct (exec_translations (e :: es) s) as (s' & Hrun & _ & Hkey).
    by exists s'. }
  destruct (exec_returns c s) as (s' & Hrun & _ & _ & [added Ht] & _).
  by exists s', added.
Qed.

(** ** Totality *)

(** C9.  No method of the class throws: every sequence of calls, made on any
    instance, returns and leaves an instance that [render()] turns into an
    output, with one field more per declaring call.  No call looks a field
    name up before storing it: [sort] and [archive] store the name they are
    given on every instance, also when [findField] finds no field of that
    name, as for ["nonexistent_field"] on a new collection. *)
Theorem collection_methods_total (cs : list Call) (field : jsstring) (s : This.t) :
  (∃ s' out,
     run (exec_all cs) s = Ok (tt, s')
     ∧ run Collection.render s' = Ok (out, s')
     ∧ Rendered.collection out = This.name s
     ∧ length (Rendered.fields out)
       = (length (This.fields s) + length (filter is_declare cs))%nat)
  ∧ (∃ s',
       run (Collection.sort field) s = Ok (tt, s')
       ∧ CollectionMeta.sort_field (This.meta s') = Some field
       ∧ This.fields s' = This.fields s)
  ∧ (∃ s',
       run (Collection.archive field None None None) s = Ok (tt, s')
       ∧ CollectionMeta.archive_field (This.meta s') = Some field
       ∧ This.fields s' = This.fields s)
  ∧ (∃ s' out,
       run (Collection.sort "nonexistent_field";;
            Collection.archive "nonexistent_field" None None None)
         (Collection.constructor (This.builder s) (This.name s) None None None)
         = Ok (tt, s')
       ∧ run (Collection.findField "nonexistent_field") s' = Ok (None, s')
       ∧ run Collection.render s' = Ok (out, s')
       ∧ CollectionMeta.sort_field (Rendered.meta out) = Some "nonexistent_field"
       ∧ CollectionMeta.archive_field (Rendered.meta out) = Some "nonexistent_field"
       ∧ Rendered.fields out = []).
Proof.
  split.
  { destruct (exec_all_returns cs s) as (s' & Hrun & Hn & _ & _ & added & Hf & Hl).
    eexists s', _. split; [exact Hrun |]. split; [apply run_render |].
    cbn [Rendered.collection Rendered.fields]. split; [exact Hn |].
    by rewrite length_fmap, Hf, length_app, Hl. }
  split; [eexists; repeat split |].
  split; [eexists; repeat split |].
  eexists _, _. repeat split.
Qed.

(** ** The worked example, evaluated *)

Example articles_fields :
  (λ o, (λ f, (Field.out_field f, Field.out_type f,
               FieldMeta.special (Field.out_meta f)))
          <$> Rendered.fields o.1) <$> articles_output
  = Some [ ("id", "integer", []);
           ("title", "string", []);
           ("published", "boolean", ["boolean"]);
           ("author", "uuid", ["user-created"]);
           ("cover", "uuid", ["file"]);
           ("owner", "uuid", ["user-created"; "role-updated"]) ].
Proof. vm_compute. reflexivity. Qed.

Example articles_meta :
  (λ o, Rendered.meta o.1) <$> articles_output
  = Some {| CollectionMeta.sort_field := Some "title";
            CollectionMeta.archive_field := Some "status";
            CollectionMeta.archive_value := Some (Some "archived");
            CollectionMeta.unarchive_value := Some None;
            CollectionMeta.archive_app_filter := Some true;
            CollectionMeta.accountability := None;
            CollectionMeta.hidden := None;
            CollectionMeta.singleton := None;
            CollectionMeta.translations :=
              Some [ {| CollectionMeta.language := "en";
                        CollectionMeta.translation := "Articles";
                        CollectionMeta.singular := Some "article";
                        CollectionMeta.plural := None |} ] |}.
Proof. vm_compute. reflexivity. Qed.

Example articles_relations :
  snd <$> articles_output
  = Some [ {| Builder.collection := "articles"; Builder.field := "author";
              Builder.related_collection := Some "directus_users";
              Builder.on_delete := Some "SET NULL" |};
           {| Builder.collection := "articles"; Builder.field := "cover";
              Builder.related_collection := Some "directus_files";
              Builder.on_delete := Some "SET NULL" |} ].
Proof. vm_compute. reflexivity. Qed.

Example articles_id_schema :
  (λ o, Field.out_schema <$> head (Rendered.fields o.1)) <$> articles_output
  = Some (Some {| FieldSchema.max_length := None;
                  FieldSchema.numeric_precision := None;
                  FieldSchema.numeric_scale := None;
                  FieldSchema.nullable := Some false;
                  FieldSchema.primary_key := Some true;
                  FieldSchema.autoincrement := Some true |}).
Proof. vm_compute. reflexivity. Qed.

(** * Further properties of the class *)

(** ** [findField] *)

Lemma run_findField (field : jsstring) (s : This.t) :
  run (Collection.findField field) s
  = Ok (fst <$> list_find (λ f, Field.name f = field) (This.fields s), s).
Proof. reflexivity. Qed.

(** X1.  [findField(name)] leaves the instance as it is.  It returns
    [undefined] exactly when no field has that name, and otherwise the field
    at the first position that has it. *)
Theorem findField_first_match (field : jsstring) (s : This.t) :
  ∃ r,
    run (Collection.findField field) s = Ok (r, s)
    ∧ match r with
      | None => Forall (λ f, Field.name f ≠ field) (This.fields s)
      | Some i =>
          ∃ f, This.fields s !! i = Some f
               ∧ Field.name f = field
               ∧ Forall (λ g, Field.name g ≠ field) (take i (This.fields s))
      end.
Proof.
  rewrite run_findField. eexists; split; [reflexivity |].
  destruct (list_find _ _) as [[i f] |] eqn:Hfind; cbn.
  - apply list_find_Some in Hfind as (Hi & Hname & Hfirst).
    exists f. split; [exact Hi |]. split; [exact Hname |].
    apply Forall_lookup. intros j g Hj.
    apply lookup_take_Some in Hj as [Hj Hlt]. by eapply Hfirst.
  - by apply list_find_None in Hfind.
Qed.

(** What one call does to [this.fields], [this.name] and [this.schema]. *)
Lemma exec_fields (c : Call) (s : This.t) :
  ∃ s',
    run (exec c) s = Ok (tt, s')
    ∧ This.name s' = This.name s
    ∧ This.schema s' = This.schema s
    ∧ This.fields s'
      = This.fields s
        ++ match c with
           | call_declare d => (effect (This.name s) d).1
           | _ => []
           end.
Proof.
  destruct c as [d | | | | | | | | |]; cbn [exec];
    try (eexists; split; [reflexivity |]; cbn; by rewrite app_nil_r).
  - rewrite run_bind, declare_effect. cbv beta iota. rewrite run_ret.
    eexists; split; [reflexivity |]. done.
  - rewrite run_translation. eexists; split; [reflexivity |].
    cbn. by rewrite app_nil_r.
Qed.

(** X2.  What [findField(name)] returns after one more call of any method:
    the field it returned before, if there was one; otherwise the field the
    call declared, if the call declared one under that name; otherwise
    still [undefined].  So a field declared under a name that is taken is
    kept, but [findField] goes on finding the older one. *)
Theorem findField_after_call (c : Call) (field : jsstring) (s : This.t) :
  ∃ r s',
    run (Collection.findField field) s = Ok (r, s)
    ∧ run (exec c) s = Ok (tt, s')
    ∧ run (Collection.findField field) s'
      = Ok (match r with
            | Some i => Some i
            | None =>
                if declares_name c field
                then Some (length (This.fields s))
                else None
            end, s').
Proof.
  destruct (exec_fields c s) as (s' & Hrun & _ & _ & Hfields).
  eexists _, s'. split; [apply run_findField |]. split; [exact Hrun |].
  rewrite run_findField, Hfields. f_equal. f_equal.
  destruct (list_find _ (This.fields s)) as [[i f] |] eqn:Hfind.
  - by erewrite list_find_app_l.
  - rewrite list_find_app_r by done. cbn [fmap option_fmap option_map].
    destruct c as [d | | | | | | | | |]; cbn [declares_name]; try reflexivity.
    destruct (effect_one_field (This.name s) d) as (f & -> & Hname & _).
    cbn. rewrite Hname. unfold bool_decide.
    destruct (decide_rel eq (call_name d) field); reflexivity.
Qed.

(** ** Typed helpers *)

Ltac solve_declares_only :=
  unfold declares_only; run_helper; reflexivity.

(** X3.  [datetime], [timestamp], [date] and [time] declare a field of the
    type they are named after, with an empty schema.  Its special tags are
    ["date-created"] when [on_create] is true, followed by ["date-updated"]
    when [on_updated] is true; a flag left out counts as false, and with both
    false the field has no tag.  Nothing else changes. *)
Theorem date_helpers_tags (name : jsstring) (on_create on_updated : option bool)
    (s : This.t) :
  let tags :=
    (if default false on_create then ["date-created"] else [])
    ++ (if default false on_updated then ["date-updated"] else []) in
  declares_only (Collection.datetime name on_create on_updated) s
    name "datetime" FieldSchema.empty (tagged tags)
  ∧ declares_only (Collection.timestamp name on_create on_updated) s
      name "timestamp" FieldSchema.empty (tagged tags)
  ∧ declares_only (Collection.date name on_create on_updated) s
      name "date" FieldSchema.empty (tagged tags)
  ∧ declares_only (Collection.time name on_create on_updated) s
      name "time" FieldSchema.empty (tagged tags).
Proof.
  cbv zeta. repeat split; solve_declares_only.
Qed.

(** X4.  [date_created(name)] and [date_updated(name)] declare a timestamp
    field with the interface [datetime] and the display [datetime] with
    [{relative: true}]; the first is tagged ["date-created"] alone, the
    second ["date-updated"] alone. *)
Theorem date_stamps (name : jsstring) (s : This.t) :
  declares_only (Collection.date_created name) s
    name "timestamp" FieldSchema.empty
    {| FieldMeta.interface := Some "datetime";
       FieldMeta.interface_options := None;
       FieldMeta.display := Some "datetime";
       FieldMeta.display_options := Some {[ "relative" := JBool true ]};
       FieldMeta.special := ["date-created"] |}
  ∧ declares_only (Collection.date_updated name) s
      name "timestamp" FieldSchema.empty
      {| FieldMeta.interface := Some "datetime";
         FieldMeta.interface_options := None;
         FieldMeta.display := Some "datetime";
         FieldMeta.display_options := Some {[ "relative" := JBool true ]};
         FieldMeta.special := ["date-updated"] |}.
Proof.
  split; solve_declares_only.
Qed.

(** X5.  [boolean], [json], [csv] and [hash] declare a field whose type is
    the name of the method and whose one special tag is that same name. *)
Theorem self_tagging_helpers (name : jsstring) (s : This.t) :
  declares_only (Collection.boolean name) s
    name "boolean" FieldSchema.empty (tagged ["boolean"])
  ∧ declares_only (Collection.json name) s
      name "json" FieldSchema.empty (tagged ["json"])
  ∧ declares_only (Collection.csv name) s
      name "csv" FieldSchema.empty (tagged ["csv"])
  ∧ declares_only (Collection.hash name) s
      name "hash" FieldSchema.empty (tagged ["hash"]).
Proof.
  repeat split; solve_declares_only.
Qed.

(** X6.  The helpers with a size: [string] stores [max_length], 255 when it
    is left out; [integer] and [bigInteger] store [numeric_precision], 32 and
    64 when left out; [float] and [decimal] store [numeric_precision] and
    [numeric_scale], 10 and 5 when left out.  They store no other schema key
    and no tag. *)
Theorem sized_helpers_defaults (name : jsstring) (a b : option number)
    (s : This.t) :
  declares_only (Collection.string name a) s name "string"
    {| FieldSchema.max_length := Some (match a with Some n => n | None => 255 end);
       FieldSchema.numeric_precision := None;
       FieldSchema.numeric_scale := None;
       FieldSchema.nullable := None;
       FieldSchema.primary_key := None;
       FieldSchema.autoincrement := None |}
    (tagged [])
  ∧ declares_only (Collection.integer name a) s name "integer"
      {| FieldSchema.max_length := None;
         FieldSchema.numeric_precision :=
           Some (match a with Some n => n | None => 32 end);
         FieldSchema.numeric_scale := None;
         FieldSchema.nullable := None;
         FieldSchema.primary_key := None;
         FieldSchema.autoincrement := None |}
      (tagged [])
  ∧ declares_only (Collection.bigInteger name a) s name "bigInteger"
      {| FieldSchema.max_length := None;
         FieldSchema.numeric_precision :=
           Some (match a with Some n => n | None => 64 end);
         FieldSchema.numeric_scale := None;
         FieldSchema.nullable := None;
         FieldSchema.primary_key := None;
         FieldSchema.autoincrement := None |}
      (tagged [])
  ∧ declares_only (Collection.float name a b) s name "float"
      {| FieldSchema.max_length := None;
         FieldSchema.numeric_precision :=
           Some (match a with Some n => n | None => 10 end);
         FieldSchema.numeric_scale :=
           Some (match b with Some n => n | None => 5 end);
         FieldSchema.nullable := None;
         FieldSchema.primary_key := None;
         FieldSchema.autoincrement := None |}
      (tagged [])
  ∧ declares_only (Collection.decimal name a b) s name "decimal"
      {| FieldSchema.max_length := None;
         FieldSchema.numeric_precision :=
           Some (match a with Some n => n | None => 10 end);
         FieldSchema.numeric_scale :=
           Some (match b with Some n => n | None => 5 end);
         FieldSchema.nullable := None;
         FieldSchema.primary_key := None;
         FieldSchema.autoincrement := None |}
      (tagged []).
Proof.
  repeat split; solve_declares_only.
Qed.

(** ** What the declaring calls have in common *)

Ltac in_list :=
  repeat first [ apply list_elem_of_here | apply list_elem_of_further ].

(** X7.  Only [primary_key] touches the key flags.  The field that any other
    helper declares has [nullable], [primary_key] and [autoincrement] unset;
    [field] itself stores the schema it is given, or the empty one. *)
Theorem key_flags_only_from_primary_key (c : FieldCall) (s : This.t) :
  ∃ ref s' f,
    run (declare c) s = Ok (ref, s')
    ∧ This.fields s' !! ref = Some f
    ∧ match c with
      | call_field _ _ schema _ =>
          Field.schema f
          = match schema with Some schema => schema | None => FieldSchema.empty end
      | call_primary_key _ _ =>
          FieldSchema.nullable (Field.schema f) = Some false
          ∧ FieldSchema.primary_key (Field.schema f) = Some true
      | _ =>
          FieldSchema.nullable (Field.schema f) = None
          ∧ FieldSchema.primary_key (Field.schema f) = None
          ∧ FieldSchema.autoincrement (Field.schema f) = None
      end.
Proof.
  destruct c; run_helper;
    (eexists _, _, _; split; [reflexivity |]; cbn [This.fields];
     split; [apply lookup_pushed |]; repeat split).
Qed.

(** X8.  The type of a field declared through a typed helper is one of the
    twenty-one type names that the class spells out; only [field] takes the
    type from the caller. *)
Theorem helper_types_closed (c : FieldCall) (s : This.t) :
  ∃ ref s' f,
    run (declare c) s = Ok (ref, s')
    ∧ This.fields s' !! ref = Some f
    ∧ match c with
      | call_field _ type _ _ => Field.type f = type
      | _ => Field.type f ∈ helper_types
      end.
Proof.
  destruct c; run_helper;
    (eexists _, _, _; split; [reflexivity |]; cbn [This.fields];
     split; [apply lookup_pushed |]); cbn; try reflexivity;
    unfold helper_types; in_list.
Qed.

(** X9.  What a declaring call does to the registry.  [user_created],
    [user_updated], [role_created], [role_updated], [file] and [image] append
    one edge, from the declared field of this collection to [directus_users],
    [directus_roles] or [directus_files], with delete policy [SET NULL];
    every other declaring call leaves the registry as it is.  In both cases
    the edges that were registered before stay as they were. *)
Theorem declare_registers (c : FieldCall) (s : This.t) :
  ∃ ref s',
    run (declare c) s = Ok (ref, s')
    ∧ This.builder s'
      = This.builder s
        ++ match system_collection c with
           | Some related =>
               [ {| Builder.collection := This.name s;
                    Builder.field := call_name c;
                    Builder.related_collection := Some related;
                    Builder.on_delete := Some "SET NULL" |} ]
           | None => []
           end.
Proof.
  destruct c; run_helper;
    (eexists _, _; split; [reflexivity |]; cbn; by rewrite ?app_nil_r).
Qed.

(** X10.  Nothing stops a second primary key: two [primary_key] calls in a
    row declare two fields, and both carry the primary-key flag. *)
Theorem primary_key_not_unique (name1 name2 : jsstring) (type1 type2 : PkType)
    (s : This.t) :
  ∃ refs s' f1 f2,
    run (declare_all [call_primary_key name1 type1; call_primary_key name2 type2]) s
      = Ok (refs, s')
    ∧ This.fields s' = This.fields s ++ [f1; f2]
    ∧ Field.name f1 = name1
    ∧ Field.name f2 = name2
    ∧ FieldSchema.primary_key (Field.schema f1) = Some true
    ∧ FieldSchema.primary_key (Field.schema f2) = Some true.
Proof.
  rewrite declare_all_run. eexists _, _.
  cbn [fold_left]. unfold declare_state.
  assert (Hpk : ∀ owner name type,
    ∃ f, (effect owner (call_primary_key name type)).1 = [f]
         ∧ Field.name f = name
         ∧ FieldSchema.primary_key (Field.schema f) = Some true).
  { intros owner name type. unfold effect.
    set (s0 := Collection.constructor [] owner None None None).
    destruct type; unfold_methods; run_method; subst s0; normalise_state;
      eexists; repeat split. }
  destruct (Hpk (This.name s) name1 type1) as (f1 & Hf1 & Hn1 & Hk1).
  destruct (Hpk (This.name s) name2 type2) as (f2 & Hf2 & Hn2 & Hk2).
  exists f1, f2. split; [reflexivity |].
  cbn [after_effect This.fields This.name]. rewrite Hf1, Hf2, <- app_assoc.
  done.
Qed.

(** ** Metadata setters *)

(** X11.  [hidden], [singleton], [sort], [archive] and [accountability]
    write different keys of [meta]: two of them can be called in either
    order.  Each of them also commutes with [translation]. *)
Theorem meta_setters_commute (a b : option bool) (f g : jsstring)
    (v u : option (option jsstring)) (w : option bool)
    (acc : option Accountability)
    (language translation : jsstring) (singular plural : option jsstring)
    (s : This.t) :
  run (Collection.hidden a;; Collection.singleton b) s
    = run (Collection.singleton b;; Collection.hidden a) s
  ∧ run (Collection.hidden a;; Collection.sort f) s
    = run (Collection.sort f;; Collection.hidden a) s
  ∧ run (Collection.hidden a;; Collection.archive g v u w) s
    = run (Collection.archive g v u w;; Collection.hidden a) s
  ∧ run (Collection.hidden a;; Collection.accountability acc) s
    = run (Collection.accountability acc;; Collection.hidden a) s
  ∧ run (Collection.singleton b;; Collection.sort f) s
    = run (Collection.sort f;; Collection.singleton b) s
  ∧ run (Collection.singleton b;; Collection.archive g v u w) s
    = run (Collection.archive g v u w;; Collection.singleton b) s
  ∧ run (Collection.singleton b;; Collection.accountability acc) s
    = run (Collection.accountability acc;; Collection.singleton b) s
  ∧ run (Collection.sort f;; Collection.archive g v u w) s
    = run (Collection.archive g v u w;; Collection.sort f) s
  ∧ run (Collection.sort f;; Collection.accountability acc) s
    = run (Collection.accountability acc;; Collection.sort f) s
  ∧ run (Collection.archive g v u w;; Collection.accountability acc) s
    = run (Collection.accountability acc;; Collection.archive g v u w) s
  ∧ run (Collection.translation language translation singular plural;;
         Collection.hidden a) s
    = run (Collection.hidden a;;
           Collection.translation language translation singular plural) s
  ∧ run (Collection.translation language translation singular plural;;
         Collection.singleton b) s
    = run (Collection.singleton b;;
           Collection.translation language translation singular plural) s
  ∧ run (Collection.translation language translation singular plural;;
         Collection.sort f) s
    = run (Collection.sort f;;
           Collection.translation language translation singular plural) s
  ∧ run (Collection.translation language translation singular plural;;
         Collection.archive g v u w) s
    = run (Collection.archive g v u w;;
           Collection.translation language translation singular plural) s
  ∧ run (Collection.translation language translation singular plural;;
         Collection.accountability acc) s
    = run (Collection.accountability acc;;
           Collection.translation language translation singular plural) s.
Proof.
  destruct s as [bld n sch m fs]; destruct m as [? ? ? ? ? ? ? ? [ts |]];
    repeat split.
Qed.

(** X12.  A setter called again overwrites what the earlier call stored:
    the last call wins, and a repeated call changes nothing.  [translation]
    is different: a repeated call adds a second, equal entry. *)
Theorem meta_setters_last_call_wins (a a' : option bool) (f f' : jsstring)
    (v u v' u' : option (option jsstring)) (w w' : option bool)
    (acc acc' : option Accountability)
    (language translation : jsstring) (singular plural : option jsstring)
    (s : This.t) :
  run (Collection.hidden a;; Collection.hidden a') s
    = run (Collection.hidden a') s
  ∧ run (Collection.singleton a;; Collection.singleton a') s
    = run (Collection.singleton a') s
  ∧ run (Collection.sort f;; Collection.sort f') s = run (Collection.sort f') s
  ∧ run (Collection.archive f v u w;; Collection.archive f' v' u' w') s
    = run (Collection.archive f' v' u' w') s
  ∧ run (Collection.accountability acc;; Collection.accountability acc') s
    = run (Collection.accountability acc') s
  ∧ ∃ s1 s2,
      run (Collection.translation language translation singular plural) s
        = Ok (tt, s1)
      ∧ run (Collection.translation language translation singular plural;;
             Collection.translation language translation singular plural) s
        = Ok (tt, s2)
      ∧ length (translations_of s1) = S (length (translations_of s))
      ∧ length (translations_of s2) = S (S (length (translations_of s))).
Proof.
  do 5 (split; [reflexivity |]).
  eexists _, _. split; [apply run_translation |].
  split.
  { rewrite run_bind, run_translation. cbv beta iota. apply run_translation. }
  unfold translations_of; cbn. rewrite !length_app; cbn. lia.
Qed.

(** A call that only writes [meta] is a function of [meta] alone. *)
Lemma run_meta_only (m : Call) :
  writes_meta_only m = true →
  ∃ g, ∀ s, run (exec m) s = Ok (tt, This.with_meta g s).
Proof.
  destruct m; try discriminate; intros _; cbn [exec];
    try (eexists (λ m, _); intros s; reflexivity).
  - eexists (λ m, CollectionMeta.set_archive_app_filter _
                    (CollectionMeta.set_unarchive_value _
                       (CollectionMeta.set_archive_value _
                          (CollectionMeta.set_archive_field _ m)))).
    intros s; reflexivity.
  - eexists (λ m, CollectionMeta.set_translations
                    (match CollectionMeta.translations m with
                     | Some entries => entries
                     | None => []
                     end ++ [_]) m).
    intros s. rewrite run_translation. reflexivity.
Qed.

(** X13.  A call that only writes [meta] and a declaring call can be made in
    either order: the instance ends up the same, and so does the reference
    that the declaring call returns. *)
Theorem meta_calls_commute_with_declare (m : Call) (c : FieldCall) (s : This.t) :
  writes_meta_only m = true →
  run (exec m;; declare c) s = run (ref ← declare c; exec m;; mret ref) s.
Proof.
  intros Hm. destruct (run_meta_only m Hm) as [g Hg].
  rewrite !run_bind, declare_effect, Hg. cbv beta iota.
  rewrite declare_effect, run_bind, Hg. reflexivity.
Qed.

Lemma meta_calls_commute_with_declare_witness :
  writes_meta_only (call_sort "title") = true
  ∧ run (exec (call_sort "title");; declare (call_boolean "published"))
        (Collection.constructor [] "articles" None None None)
    = run (ref ← declare (call_boolean "published");
           exec (call_sort "title");; mret ref)
        (Collection.constructor [] "articles" None None None).
Proof.
  split; [reflexivity |].
  apply (meta_calls_commute_with_declare (call_sort "title")
           (call_boolean "published")
           (Collection.constructor [] "articles" None None None)).
  reflexivity.
Defined.

(** ** What no call undoes *)

Lemma exec_all_fields (cs : list Call) (s : This.t) :
  ∃ s' added,
    run (exec_all cs) s = Ok (tt, s')
    ∧ This.name s' = This.name s
    ∧ This.schema s' = This.schema s
    ∧ This.fields s' = This.fields s ++ added
    ∧ Forall (λ f, Field.collection f = This.name s) added.
Proof.
  revert s; induction cs as [| c cs IH]; intros s.
  - exists s, []. rewrite app_nil_r. repeat split. constructor.
  - destruct (exec_fields c s) as (s1 & Hrun & Hn & Hs & Hf).
    destruct (IH s1) as (s2 & added & Hrun2 & Hn2 & Hs2 & Hf2 & Hown).
    cbn [exec_all]. rewrite run_bind, Hrun. cbv beta iota.
    set (added1 := match c with
                   | call_declare d => (effect (This.name s) d).1
                   | _ => []
                   end) in Hf.
    exists s2, (added1 ++ added). split; [exact Hrun2 |].
    split; [congruence |]. split; [congruence |].
    split; [by rewrite Hf2, Hf, app_assoc |].
    apply Forall_app. split; [| by rewrite <- Hn].
    subst added1.
    destruct c as [d | | | | | | | | |]; try (by constructor).
    destruct (effect_one_field (This.name s) d) as (f & -> & _ & Hc).
    by apply Forall_cons.
Qed.

(** X14.  No method takes a declared field away, moves it or changes it, and
    none changes the name or the schema of the collection: after any
    sequence of calls the fields that were there are the first fields, as
    they were, and the reference that a declaring call returned still
    denotes the field it denoted. *)
Theorem declared_fields_are_kept (c : FieldCall) (cs : list Call) (s : This.t) :
  (∃ s' added,
     run (exec_all cs) s = Ok (tt, s')
     ∧ This.name s' = This.name s
     ∧ This.schema s' = This.schema s
     ∧ This.fields s' = This.fields s ++ added)
  ∧ (∃ ref s1 s2 f,
       run (declare c) s = Ok (ref, s1)
       ∧ This.fields s1 !! ref = Some f
       ∧ run (exec_all cs) s1 = Ok (tt, s2)
       ∧ This.fields s2 !! ref = Some f).
Proof.
  split.
  - destruct (exec_all_fields cs s) as (s' & added & H1 & H2 & H3 & H4 & _).
    by exists s', added.
  - rewrite declare_effect.
    destruct (effect_one_field (This.name s) c) as (f & Hf & _).
    set (s1 := after_effect _ s).
    destruct (exec_all_fields cs s1) as (s2 & added & Hrun & _ & _ & Hfields & _).
    exists (length (This.fields s)), s1, s2, f.
    assert (Hs1 : This.fields s1 !! length (This.fields s) = Some f).
    { subst s1. cbn [after_effect This.fields]. rewrite Hf. apply lookup_pushed. }
    split; [reflexivity |]. split; [exact Hs1 |]. split; [exact Hrun |].
    rewrite Hfields. by apply lookup_app_l_Some.
Qed.

(** X15.  Every field that a method declares names this collection as its
    owner: if all fields of the instance do, they still all do after any
    sequence of calls. *)
Theorem fields_stay_owned (cs : list Call) (s : This.t) :
  owns_fields s →
  ∃ s', run (exec_all cs) s = Ok (tt, s') ∧ owns_fields s'.
Proof.
  intros Hown.
  destruct (exec_all_fields cs s) as (s' & added & Hrun & Hn & _ & Hf & Hadded).
  exists s'. split; [exact Hrun |].
  unfold owns_fields in *. rewrite Hf, Hn. by apply Forall_app.
Qed.

Lemma fields_stay_owned_witness :
  owns_fields (Collection.constructor [] "articles" None None None)
  ∧ ∃ s',
      run (exec_all [call_declare (call_string "title" None);
                     call_sort "title";
                     call_declare (call_file "cover")])
        (Collection.constructor [] "articles" None None None) = Ok (tt, s')
      ∧ owns_fields s'.
Proof.
  split; [constructor |].
  apply (fields_stay_owned
           [call_declare (call_string "title" None); call_sort "title";
            call_declare (call_file "cover")]
           (Collection.constructor [] "articles" None None None)).
  constructor.
Defined.

(** X16.  The registry only grows: after any sequence of calls the edges
    that were registered are still there, in place and unchanged.
    [relation(field, related)] appends the edge from [(this.name, field)] to
    [related] without a delete policy, whether or not the collection has
    such a field. *)
Theorem registry_only_grows (cs : list Call) (field : jsstring)
    (related : option jsstring) (s : This.t) :
  (∃ s' added,
     run (exec_all cs) s = Ok (tt, s')
     ∧ This.builder s' = This.builder s ++ added)
  ∧ (∃ s',
       run (Collection.relation field related) s = Ok (tt, s')
       ∧ This.builder s'
         = This.builder s
           ++ [ {| Builder.collection := This.name s;
                   Builder.field := field;
                   Builder.related_collection := related;
                   Builder.on_delete := None |} ]
       ∧ This.fields s' = This.fields s
       ∧ This.meta s' = This.meta s).
Proof.
  split; [| eexists; repeat split].
  revert s; induction cs as [| c cs IH]; intros s.
  - exists s, []. by rewrite app_nil_r.
  - assert (Hc : ∃ s1 added, run (exec c) s = Ok (tt, s1)
                             ∧ This.builder s1 = This.builder s ++ added).
    { destruct c as [d | | | | | | | | |]; cbn [exec];
        try (eexists _, []; split; [reflexivity |]; cbn; by rewrite app_nil_r).
      - rewrite run_bind, declare_effect. cbv beta iota. rewrite run_ret.
        eexists _, _. split; reflexivity.
      - rewrite run_translation. eexists _, [].
        split; [reflexivity |]. cbn. by rewrite app_nil_r.
      - eexists _, _. split; reflexivity. }
    destruct Hc as (s1 & added1 & Hrun1 & Hb1).
    destruct (IH s1) as (s2 & added2 & Hrun2 & Hb2).
    exists s2, (added1 ++ added2). cbn [exec_all].
    rewrite run_bind, Hrun1. cbv beta iota. split; [exact Hrun2 |].
    by rewrite Hb2, Hb1, app_assoc.
Qed.

(** ** Helpers that add nothing *)

(** X17.  A helper called without its flags is [field] with the helper's
    type: [uuid(name)] makes no [special] call, and neither do [datetime],
    [timestamp], [date] and [time] when both flags are left out or passed as
    [false]. *)
Theorem bare_helpers_are_field (name : jsstring) (s : This.t) :
  run (Collection.uuid name None None) s
    = run (Collection.field name "uuid" None None) s
  ∧ run (Collection.datetime name None None) s
    = run (Collection.field name "datetime" None None) s
  ∧ run (Collection.datetime name (Some false) (Some false)) s
    = run (Collection.field name "datetime" None None) s
  ∧ run (Collection.timestamp name None None) s
    = run (Collection.field name "timestamp" None None) s
  ∧ run (Collection.timestamp name (Some false) (Some false)) s
    = run (Collection.field name "timestamp" None None) s
  ∧ run (Collection.date name None None) s
    = run (Collection.field name "date" None None) s
  ∧ run (Collection.date name (Some false) (Some false)) s
    = run (Collection.field name "date" None None) s
  ∧ run (Collection.time name None None) s
    = run (Collection.field name "time" None None) s
  ∧ run (Collection.time name (Some false) (Some false)) s
    = run (Collection.field name "time" None None) s.
Proof.
  repeat split; unfold_methods; run_method; reflexivity.
Qed.
